(** * Insurance Portal API: the request handlers of [main.py] over the
    entity schemas of [schemas.py].

    The handlers read raw documents from a document store, strip the storage
    identifier, coerce stored datetimes, validate the result against the
    entity schema and fall back to literal records when the store has nothing
    to offer.  Documents are Python dicts keyed by field name ([gmap string
    value]); the entities are records; validation failures and Python
    exceptions are values of [result]. *)

From Stdlib Require Import ZArith Ascii PrimFloat SpecFloat FloatOps.
From stdpp Require Import gmap strings list pretty.

Open Scope string_scope.

(** ** Exceptions as results *)

Inductive error :=
| ValidationError   (* pydantic.ValidationError *)
| TypeError         (* unsupported operand types *)
| OverflowError.    (* int too large to convert to float *)

Inductive result (A : Type) :=
| Ok (a : A)
| Raise (e : error).
Arguments Ok {A} a.
Arguments Raise {A} e.

Global Instance result_ret : MRet result := @Ok.

Global Instance result_bind : MBind result := λ A B k r,
  match r with
  | Ok a => k a
  | Raise e => Raise e
  end.

Global Instance result_fmap : FMap result := λ A B f r,
  match r with
  | Ok a => Ok (f a)
  | Raise e => Raise e
  end.

(** A loop that builds a list by running [f] on every element and stops at
    the first exception: [res = []; for d in docs: res.append(f(d))] and
    [[f(d) for d in docs]]. *)
Fixpoint for_each {A B} (f : A → result B) (l : list A) : result (list B) :=
  match l with
  | [] => Ok []
  | x :: l' => y ← f x ; ys ← for_each f l' ; Ok (y :: ys)
  end.

Definition of_option {A} (o : option A) : result A :=
  match o with
  | Some a => Ok a
  | None => Raise ValidationError
  end.

Definition is_ok {A} (r : result A) : bool :=
  match r with Ok _ => true | Raise _ => false end.

(** ** Python values held by a document *)

(** [datetime.date] and naive [datetime.datetime]. *)
Record date := Date { year : N; month : N; day : N }.

Record datetime := Datetime {
  date_part : date;
  hour : N; minute : N; second : N; microsecond : N
}.

(** [datetime(y, m, d)]: the time of day defaults to midnight. *)
Definition datetime_ymd (y m d : N) : datetime := Datetime (Date y m d) 0 0 0 0.

(** [dt.date()] *)
Definition to_date (t : datetime) : date := date_part t.

Definition zero_time (t : datetime) : bool :=
  (hour t =? 0)%N && (minute t =? 0)%N && (second t =? 0)%N && (microsecond t =? 0)%N.

Definition zfill (width : nat) (s : string) : string :=
  String.concat "" (replicate (width - String.length s) "0") +:+ s.

(** [dt.isoformat()] of a naive datetime: [YYYY-MM-DDTHH:MM:SS], followed by
    [.ffffff] when the microsecond is not zero. *)
Definition isoformat (t : datetime) : string :=
  let d := date_part t in
  zfill 4 (pretty (year d)) +:+ "-" +:+ zfill 2 (pretty (month d)) +:+ "-" +:+
  zfill 2 (pretty (day d)) +:+ "T" +:+ zfill 2 (pretty (hour t)) +:+ ":" +:+
  zfill 2 (pretty (minute t)) +:+ ":" +:+ zfill 2 (pretty (second t)) +:+
  (if (microsecond t =? 0)%N then "" else "." +:+ zfill 6 (pretty (microsecond t))).

(** The values that occur in the documents of this application: what the
    store hands back (null, string, integer, double, datetime, object id) and
    what the handlers and [model_dump] put into a dict ([date]). *)
Inductive value :=
| VNone
| VStr (s : string)
| VInt (z : Z)
| VFloat (f : float)
| VDate (d : date)
| VDatetime (t : datetime)
| VObjectId (n : N).

(** A raw document / keyword-argument dict. *)
Abbreviation doc := (gmap string value).

(** [isinstance(v, datetime)] *)
Definition is_datetime (v : option value) : bool :=
  match v with Some (VDatetime _) => true | _ => false end.

(** [float(z)] for a Python int: correctly rounded, [OverflowError] beyond
    the range of a double. *)
Definition float_of_int (z : Z) : result float :=
  let f := SF2Prim (binary_normalize prec emax z 0 false) in
  if is_infinity f then Raise OverflowError else Ok f.

(** Python numbers as [sum] produces them. *)
Inductive number :=
| NInt (z : Z)
| NFloat (f : float).

(** [acc + v] *)
Definition py_add (acc : number) (v : value) : result number :=
  match acc, v with
  | NInt a, VInt b => Ok (NInt (a + b))
  | NInt a, VFloat b => a' ← float_of_int a ; Ok (NFloat (a' + b))
  | NFloat a, VInt b => b' ← float_of_int b ; Ok (NFloat (a + b'))
  | NFloat a, VFloat b => Ok (NFloat (a + b))
  | _, _ => Raise TypeError
  end.

(** [sum(vs)]: starts from the int [0] and adds from left to right. *)
Fixpoint py_sum_from (acc : number) (vs : list value) : result number :=
  match vs with
  | [] => Ok acc
  | v :: vs' => acc' ← py_add acc v ; py_sum_from acc' vs'
  end.

Definition py_sum (vs : list value) : result number := py_sum_from (NInt 0) vs.

(** ** Schema validation (pydantic) *)

(** What pydantic does with an input of the declared type is written out
    below.  Its lax-mode conversions of other inputs (numeric and ISO-8601
    strings, timestamps) and the address normalisation of [EmailStr] belong
    to the library and stay abstract; the two addresses that the source
    itself constructs are valid and already in normal form. *)
Class Pydantic := {
  lax_int : value → option Z;
  lax_float : value → option float;
  lax_date : value → option date;
  lax_datetime : value → option datetime;
  validate_email : string → option string;
  validate_email_monique :
    validate_email "monique@example.com" = Some "monique@example.com";
  validate_email_stuart :
    validate_email "stuart@example.com" = Some "stuart@example.com"
}.

(** Declared field types, as written in [schemas.py]. *)
Inductive ftype :=
| TStr
| TEmailStr
| TInt
| TFloat
| TDate
| TDatetime
| TLiteral (options : list string)
| TOptional (ty : ftype)
| TGe0 (ty : ftype).          (* [Field(..., ge=0)] *)

Fixpoint has_type (ty : ftype) (v : value) : bool :=
  match ty, v with
  | TStr, VStr _ => true
  | TEmailStr, VStr _ => true
  | TInt, VInt _ => true
  | TFloat, VFloat _ => true
  | TDate, VDate _ => true
  | TDatetime, VDatetime _ => true
  | TLiteral options, VStr s => bool_decide (s ∈ options)
  | TOptional _, VNone => true
  | TOptional ty', _ => has_type ty' v
  | TGe0 ty', VInt z => has_type ty' v && (0 <=? z)%Z
  | TGe0 ty', VFloat f => has_type ty' v && (0 <=? f)%float
  | _, _ => false
  end.

(** A dict conforms to a schema when it has exactly the declared fields and
    every field holds a value of its declared type. *)
Definition conforms (schema : list (string * ftype)) (d : doc) : Prop :=
  dom d = list_to_set schema.*1 ∧
  ∀ k ty, (k, ty) ∈ schema → ∃ v, d !! k = Some v ∧ has_type ty v = true.

Section fields.
Context {pydantic : Pydantic}.

(** A field without default: [name: T] or [Field(...)]. *)
Definition required {A} (d : doc) (k : string) (f : value → result A) : result A :=
  match d !! k with
  | Some v => f v
  | None => Raise ValidationError
  end.

(** A field with a default: [name: T = dflt]. *)
Definition defaulted {A} (d : doc) (k : string) (dflt : A) (f : value → result A) : result A :=
  match d !! k with
  | Some v => f v
  | None => Ok dflt
  end.

Definition str_field (v : value) : result string :=
  match v with
  | VStr s => Ok s
  | _ => Raise ValidationError
  end.

Definition email_field (v : value) : result string :=
  match v with
  | VStr s => of_option (validate_email s)
  | _ => Raise ValidationError
  end.

Definition int_field (v : value) : result Z :=
  match v with
  | VInt z => Ok z
  | _ => of_option (lax_int v)
  end.

Definition float_field (v : value) : result float :=
  match v with
  | VFloat f => Ok f
  | VInt z =>
      match float_of_int z with
      | Ok f => Ok f
      | Raise _ => of_option (lax_float v)
      end
  | _ => of_option (lax_float v)
  end.

(** A [date] field takes a date, and a datetime only at midnight. *)
Definition date_field (v : value) : result date :=
  match v with
  | VDate d => Ok d
  | VDatetime t => if zero_time t then Ok (to_date t) else Raise ValidationError
  | _ => of_option (lax_date v)
  end.

Definition datetime_field (v : value) : result datetime :=
  match v with
  | VDatetime t => Ok t
  | _ => of_option (lax_datetime v)
  end.

(** [Literal[...]]: the input has to equal one of the listed strings. *)
Definition literal_field {A} (table : list (string * A)) (v : value) : result A :=
  match v with
  | VStr s => of_option (snd <$> List.find (λ p, String.eqb (fst p) s) table)
  | _ => Raise ValidationError
  end.

Definition optional {A} (f : value → result A) (v : value) : result (option A) :=
  match v with
  | VNone => Ok None
  | _ => a ← f v ; Ok (Some a)
  end.

Definition ge0_int (f : value → result Z) (v : value) : result Z :=
  z ← f v ; if (0 <=? z)%Z then Ok z else Raise ValidationError.

Definition ge0_float (f : value → result float) (v : value) : result float :=
  x ← f v ; if (0 <=? x)%float then Ok x else Raise ValidationError.
End fields.

(** [None] or a value, back into a dict. *)
Definition dump_optional {A} (f : A → value) (o : option A) : value :=
  match o with
  | Some a => f a
  | None => VNone
  end.

(** ** Entities ([schemas.py]) *)

Module Policy.
Inductive status_t := active | expired | cancelled.

Definition status_str (s : status_t) : string :=
  match s with
  | active => "active"
  | expired => "expired"
  | cancelled => "cancelled"
  end.

Record t := Make {
  policy_number : string;
  product : string;
  status : status_t;
  start_date : date;
  end_date : date;
  premium : float;
  insured_entity : string
}.

Definition schema : list (string * ftype) :=
  [ ("policy_number", TStr); ("product", TStr);
    ("status", TLiteral ["active"; "expired"; "cancelled"]);
    ("start_date", TDate); ("end_date", TDate);
    ("premium", TGe0 TFloat); ("insured_entity", TStr) ].

Definition model_dump (p : t) : doc :=
  {[ "policy_number" := VStr (policy_number p);
     "product" := VStr (product p);
     "status" := VStr (status_str (status p));
     "start_date" := VDate (start_date p);
     "end_date" := VDate (end_date p);
     "premium" := VFloat (premium p);
     "insured_entity" := VStr (insured_entity p) ]}.

(** The constructor applied to the keyword dict [d]. *)
Definition validate `{Pydantic} (d : doc) : result t :=
  policy_number' ← required d "policy_number" str_field ;
  product' ← required d "product" str_field ;
  status' ← defaulted d "status" active
    (literal_field [("active", active); ("expired", expired); ("cancelled", cancelled)]) ;
  start_date' ← required d "start_date" date_field ;
  end_date' ← required d "end_date" date_field ;
  premium' ← required d "premium" (ge0_float float_field) ;
  insured_entity' ← required d "insured_entity" str_field ;
  Ok (Make policy_number' product' status' start_date' end_date' premium' insured_entity').
End Policy.

Module DocumentItem.
Record t := Make {
  filename : string;
  content_type : option string;
  size_bytes : option Z;
  category : option string;
  policy_number : option string
}.

Definition schema : list (string * ftype) :=
  [ ("filename", TStr); ("content_type", TOptional TStr);
    ("size_bytes", TOptional (TGe0 TInt)); ("category", TOptional TStr);
    ("policy_number", TOptional TStr) ].

Definition model_dump (x : t) : doc :=
  {[ "filename" := VStr (filename x);
     "content_type" := dump_optional VStr (content_type x);
     "size_bytes" := dump_optional VInt (size_bytes x);
     "category" := dump_optional VStr (category x);
     "policy_number" := dump_optional VStr (policy_number x) ]}.

Definition validate `{Pydantic} (d : doc) : result t :=
  filename' ← required d "filename" str_field ;
  content_type' ← defaulted d "content_type" None (optional str_field) ;
  size_bytes' ← defaulted d "size_bytes" None (optional (ge0_int int_field)) ;
  category' ← defaulted d "category" None (optional str_field) ;
  policy_number' ← defaulted d "policy_number" None (optional str_field) ;
  Ok (Make filename' content_type' size_bytes' category' policy_number').
End DocumentItem.

Module Invoice.
Inductive status_t := outstanding | paid.

Definition status_str (s : status_t) : string :=
  match s with
  | outstanding => "outstanding"
  | paid => "paid"
  end.

Record t := Make {
  invoice_number : string;
  amount : float;
  due_date : date;
  status : status_t;
  policy_number : option string
}.

Definition schema : list (string * ftype) :=
  [ ("invoice_number", TStr); ("amount", TGe0 TFloat); ("due_date", TDate);
    ("status", TLiteral ["outstanding"; "paid"]);
    ("policy_number", TOptional TStr) ].

Definition model_dump (x : t) : doc :=
  {[ "invoice_number" := VStr (invoice_number x);
     "amount" := VFloat (amount x);
     "due_date" := VDate (due_date x);
     "status" := VStr (status_str (status x));
     "policy_number" := dump_optional VStr (policy_number x) ]}.

Definition validate `{Pydantic} (d : doc) : result t :=
  invoice_number' ← required d "invoice_number" str_field ;
  amount' ← required d "amount" (ge0_float float_field) ;
  due_date' ← required d "due_date" date_field ;
  status' ← defaulted d "status" outstanding
    (literal_field [("outstanding", outstanding); ("paid", paid)]) ;
  policy_number' ← defaulted d "policy_number" None (optional str_field) ;
  Ok (Make invoice_number' amount' due_date' status' policy_number').
End Invoice.

Module Renewal.
Inductive status_t := due | submitted | not_required.

Definition status_str (s : status_t) : string :=
  match s with
  | due => "due"
  | submitted => "submitted"
  | not_required => "not_required"
  end.

Record t := Make {
  policy_number : string;
  product : string;
  renewal_date : date;
  status : status_t
}.

Definition schema : list (string * ftype) :=
  [ ("policy_number", TStr); ("product", TStr); ("renewal_date", TDate);
    ("status", TLiteral ["due"; "submitted"; "not_required"]) ].

Definition model_dump (x : t) : doc :=
  {[ "policy_number" := VStr (policy_number x);
     "product" := VStr (product x);
     "renewal_date" := VDate (renewal_date x);
     "status" := VStr (status_str (status x)) ]}.

Definition validate `{Pydantic} (d : doc) : result t :=
  policy_number' ← required d "policy_number" str_field ;
  product' ← required d "product" str_field ;
  renewal_date' ← required d "renewal_date" date_field ;
  status' ← defaulted d "status" due
    (literal_field [("due", due); ("submitted", submitted); ("not_required", not_required)]) ;
  Ok (Make policy_number' product' renewal_date' status').
End Renewal.

Module Activity.
Record t := Make {
  type : string;
  message : string;
  actor : option string;
  occurred_at : option datetime
}.

Definition schema : list (string * ftype) :=
  [ ("type", TStr); ("message", TStr); ("actor", TOptional TStr);
    ("occurred_at", TOptional TDatetime) ].

Definition model_dump (x : t) : doc :=
  {[ "type" := VStr (type x);
     "message" := VStr (message x);
     "actor" := dump_optional VStr (actor x);
     "occurred_at" := dump_optional VDatetime (occurred_at x) ]}.

Definition validate `{Pydantic} (d : doc) : result t :=
  type' ← required d "type" str_field ;
  message' ← required d "message" str_field ;
  actor' ← defaulted d "actor" (Some "system") (optional str_field) ;
  occurred_at' ← defaulted d "occurred_at" None (optional datetime_field) ;
  Ok (Make type' message' actor' occurred_at').
End Activity.

Module Notification.
Inductive level_t := info | warning | critical.

Definition level_str (l : level_t) : string :=
  match l with
  | info => "info"
  | warning => "warning"
  | critical => "critical"
  end.

Record t := Make {
  title : string;
  message : string;
  level : level_t
}.

Definition schema : list (string * ftype) :=
  [ ("title", TStr); ("message", TStr);
    ("level", TLiteral ["info"; "warning"; "critical"]) ].

Definition model_dump (x : t) : doc :=
  {[ "title" := VStr (title x);
     "message" := VStr (message x);
     "level" := VStr (level_str (level x)) ]}.

Definition validate `{Pydantic} (d : doc) : result t :=
  title' ← required d "title" str_field ;
  message' ← required d "message" str_field ;
  level' ← defaulted d "level" info
    (literal_field [("info", info); ("warning", warning); ("critical", critical)]) ;
  Ok (Make title' message' level').
End Notification.

Module Update.
Record t := Make {
  title : string;
  label : option string;
  description : option string;
  date_str : string
}.

Definition schema : list (string * ftype) :=
  [ ("title", TStr); ("label", TOptional TStr);
    ("description", TOptional TStr); ("date_str", TStr) ].

Definition model_dump (x : t) : doc :=
  {[ "title" := VStr (title x);
     "label" := dump_optional VStr (label x);
     "description" := dump_optional VStr (description x);
     "date_str" := VStr (date_str x) ]}.

Definition validate `{Pydantic} (d : doc) : result t :=
  title' ← required d "title" str_field ;
  label' ← defaulted d "label" (Some "Latest Update") (optional str_field) ;
  description' ← defaulted d "description" None (optional str_field) ;
  date_str' ← required d "date_str" str_field ;
  Ok (Make title' label' description' date_str').
End Update.

Module TeamMember.
Record t := Make {
  name : string;
  role : string;
  email : string;
  phone : string;
  linkedin : option string
}.

Definition schema : list (string * ftype) :=
  [ ("name", TStr); ("role", TStr); ("email", TEmailStr); ("phone", TStr);
    ("linkedin", TOptional TStr) ].

Definition model_dump (x : t) : doc :=
  {[ "name" := VStr (name x);
     "role" := VStr (role x);
     "email" := VStr (email x);
     "phone" := VStr (phone x);
     "linkedin" := dump_optional VStr (linkedin x) ]}.

Definition validate `{Pydantic} (d : doc) : result t :=
  name' ← required d "name" str_field ;
  role' ← required d "role" str_field ;
  email' ← required d "email" email_field ;
  phone' ← required d "phone" str_field ;
  linkedin' ← defaulted d "linkedin" None (optional str_field) ;
  Ok (Make name' role' email' phone' linkedin').
End TeamMember.

(** [DashboardCounts] of [main.py]. *)
Module DashboardCounts.
Record t := Make {
  active_policies : Z;
  outstanding_invoices : Z;
  outstanding_total : float;
  renewals_due : Z;
  risk_updates : Z
}.

Definition validate `{Pydantic} (d : doc) : result t :=
  active_policies' ← required d "active_policies" int_field ;
  outstanding_invoices' ← required d "outstanding_invoices" int_field ;
  outstanding_total' ← required d "outstanding_total" float_field ;
  renewals_due' ← required d "renewals_due" int_field ;
  risk_updates' ← required d "risk_updates" int_field ;
  Ok (Make active_policies' outstanding_invoices' outstanding_total'
           renewals_due' risk_updates').
End DashboardCounts.

(** Every model offers [model_dump]; the store's [create_document] takes any
    of them. *)
Class BaseModel (E : Type) := model_dump : E → doc.

Global Instance Policy_model : BaseModel Policy.t := Policy.model_dump.
Global Instance DocumentItem_model : BaseModel DocumentItem.t := DocumentItem.model_dump.
Global Instance Invoice_model : BaseModel Invoice.t := Invoice.model_dump.
Global Instance Renewal_model : BaseModel Renewal.t := Renewal.model_dump.
Global Instance Activity_model : BaseModel Activity.t := Activity.model_dump.
Global Instance Update_model : BaseModel Update.t := Update.model_dump.
Global Instance TeamMember_model : BaseModel TeamMember.t := TeamMember.model_dump.

(** ** Store adapter ([database.py]) *)

(** Modelled from the spec: [database.py] is not among the sources.  A store
    holds named collections of raw records, each collection in insertion
    order, and hands out the internal identifiers. *)
Record Database := {
  collections : gmap string (list doc);
  next_id : N
}.

(** Modelled from the spec: the handle [db] of the missing [database.py],
    absent ([None]) when no connection was established at startup
    ([isAvailable]). *)
Abbreviation Store := (option Database).

(** Modelled from the spec: [findAll(collection)] of the missing
    [database.py] returns all records of the collection in insertion order. *)
Definition get_documents (db : Database) (collection_name : string) : list doc :=
  default [] (collections db !! collection_name).

(** Modelled from the spec: [insert(collection, record)] of the missing
    [database.py] writes one record, the dumped entity under a fresh internal
    identifier [_id]. *)
Definition create_document `{BaseModel E} (collection_name : string) (data : E)
    (db : Database) : Database :=
  {| collections :=
       <[collection_name :=
           (get_documents db collection_name ++
            [<["_id" := VObjectId (next_id db)]> (model_dump data)])%list]>
         (collections db);
     next_id := N.succ (next_id db) |}.

(** Modelled from the spec: a filter of the missing store client is a
    predicate on records; the source only filters by equality of a field
    with a string, and [{}] matches every record. *)
Definition matches (filter : list (string * string)) (d : doc) : bool :=
  forallb (λ '(k, s), match d !! k with
                      | Some (VStr s') => String.eqb s' s
                      | _ => false
                      end) filter.

(** Modelled from the spec: [db[collection].find(filter)]. *)
Definition find (db : Database) (collection_name : string)
    (filter : list (string * string)) : list doc :=
  List.filter (matches filter) (get_documents db collection_name).

(** Modelled from the spec: [count(collection, filter)] returns the number of
    records that match the filter. *)
Definition count_documents (db : Database) (collection_name : string)
    (filter : list (string * string)) : Z :=
  Z.of_nat (length (find db collection_name filter)).

(** ** Python library pieces used by the handlers *)

(** A normalised [timedelta]. *)
Record timedelta := Timedelta { days : Z; seconds : Z; microseconds : Z }.

(** [timedelta(hours=h)] and [timedelta(days=d)] *)
Definition timedelta_hours (h : Z) : timedelta := Timedelta 0 (h * 3600) 0.
Definition timedelta_days (d : Z) : timedelta := Timedelta d 0 0.

(** Calendar arithmetic [dt - delta] is the library's. *)
Class DatetimeArith := datetime_sub : datetime → timedelta → result datetime.

(** The successive readings of [datetime.utcnow()] during one call, in
    evaluation order. *)
Abbreviation Clock := (nat → datetime).

(** Truth value of a list: [if docs]. *)
Definition truthy {A} (l : list A) : bool :=
  match l with
  | [] => false
  | _ :: _ => true
  end.

Definition number_value (n : number) : value :=
  match n with
  | NInt z => VInt z
  | NFloat f => VFloat f
  end.

(** [if isinstance(d.get(k), datetime): d[k] = d[k].date()] *)
Definition date_if_datetime (k : string) (d : doc) : doc :=
  match d !! k with
  | Some (VDatetime t) => <[k := VDate (to_date t)]> d
  | _ => d
  end.

(** [if isinstance(d.get(k), datetime): d[k] = d[k].isoformat()] *)
Definition isoformat_if_datetime (k : string) (d : doc) : doc :=
  match d !! k with
  | Some (VDatetime t) => <[k := VStr (isoformat t)]> d
  | _ => d
  end.

(** Statements that write to the store and may raise.  What was written
    before an exception stays written. *)
Definition script (A : Type) : Type := Database → result A * Database.

Global Instance script_ret : MRet script := λ A a db, (Ok a, db).

Global Instance script_bind : MBind script := λ A B k m db,
  match m db with
  | (Ok a, db') => k a db'
  | (Raise e, db') => (Raise e, db')
  end.

(** [create_document(name, E(...))]: the entity is constructed first, which
    may raise, and is then inserted. *)
Definition create `{BaseModel E} (collection_name : string) (data : result E) : script unit :=
  λ db, match data with
        | Ok e => (Ok (), create_document collection_name e db)
        | Raise err => (Raise err, db)
        end.

(** [db[name].count_documents({}) == 0] *)
Definition is_empty_collection (collection_name : string) : script bool :=
  λ db, (Ok (count_documents db collection_name [] =? 0)%Z, db).

Definition when (b : bool) (body : script unit) : script unit :=
  if b then body else mret ().

(** ** Request handlers ([main.py]) *)

Section app.
Context {pydantic : Pydantic} {arith : DatetimeArith}.

(** *** Startup: [seed_demo] *)

Definition seed_policies : script unit :=
  empty ← is_empty_collection "policy" ;
  when empty (
    _ ← create "policy" (Policy.validate
          {[ "policy_number" := VStr "CP-12345"; "product" := VStr "Commercial Property";
             "start_date" := VDatetime (datetime_ymd 2024 1 1);
             "end_date" := VDatetime (datetime_ymd 2024 12 31);
             "premium" := VInt 12000; "insured_entity" := VStr "Acme Corp";
             "status" := VStr "active" ]}) ;
    _ ← create "policy" (Policy.validate
          {[ "policy_number" := VStr "GL-67890"; "product" := VStr "General Liability";
             "start_date" := VDatetime (datetime_ymd 2024 3 1);
             "end_date" := VDatetime (datetime_ymd 2025 2 28);
             "premium" := VInt 8500; "insured_entity" := VStr "Acme Corp";
             "status" := VStr "active" ]}) ;
    create "policy" (Policy.validate
          {[ "policy_number" := VStr "CY-22222"; "product" := VStr "Cyber";
             "start_date" := VDatetime (datetime_ymd 2024 6 1);
             "end_date" := VDatetime (datetime_ymd 2025 5 31);
             "premium" := VInt 4000; "insured_entity" := VStr "Acme Corp";
             "status" := VStr "active" ]})).

Definition seed_invoices : script unit :=
  empty ← is_empty_collection "invoice" ;
  when empty (
    _ ← create "invoice" (Invoice.validate
          {[ "invoice_number" := VStr "INV-001"; "amount" := VInt 15000;
             "due_date" := VDatetime (datetime_ymd 2025 11 15);
             "status" := VStr "outstanding" ]}) ;
    create "invoice" (Invoice.validate
          {[ "invoice_number" := VStr "INV-002"; "amount" := VInt 9500;
             "due_date" := VDatetime (datetime_ymd 2025 11 20);
             "status" := VStr "outstanding" ]})).

Definition seed_renewals : script unit :=
  empty ← is_empty_collection "renewal" ;
  when empty (
    create "renewal" (Renewal.validate
          {[ "policy_number" := VStr "XX-0000"; "product" := VStr "Directors & Officers";
             "renewal_date" := VDatetime (datetime_ymd 2026 2 1);
             "status" := VStr "not_required" ]})).

Definition seed_updates : script unit :=
  empty ← is_empty_collection "update" ;
  when empty (
    create "update" (Update.validate
          {[ "title" := VStr "New Cyber Insurance Requirements for 2025";
             "description" :=
               VStr "Multi-factor authentication and endpoint detection are now standard.";
             "date_str" := VStr "Nov 10, 2024" ]})).

Definition seed_team : script unit :=
  empty ← is_empty_collection "teammember" ;
  when empty (
    _ ← create "teammember" (TeamMember.validate
          {[ "name" := VStr "Monique Reibelt"; "role" := VStr "Senior Broker";
             "email" := VStr "monique@example.com"; "phone" := VStr "+1 (555) 123-4567";
             "linkedin" := VStr "https://linkedin.com/in/moniquereibelt" ]}) ;
    create "teammember" (TeamMember.validate
          {[ "name" := VStr "Stuart Madden"; "role" := VStr "Service Agent";
             "email" := VStr "stuart@example.com"; "phone" := VStr "+1 (555) 987-6543";
             "linkedin" := VStr "https://linkedin.com/in/stuartmadden" ]})).

Definition seed_activities (utcnow : Clock) : script unit :=
  empty ← is_empty_collection "activity" ;
  when empty (
    _ ← create "activity" (Activity.validate
          {[ "type" := VStr "policy_renewal";
             "message" := VStr "Commercial Property Insurance renewed for another year";
             "actor" := VStr "system"; "occurred_at" := VDatetime (utcnow 0%nat) ]}) ;
    _ ← create "activity" (
          t ← datetime_sub (utcnow 1%nat) (timedelta_hours 6) ;
          Activity.validate
            {[ "type" := VStr "payment_made"; "message" := VStr "Payment of $10,000 recorded";
               "actor" := VStr "John Smith"; "occurred_at" := VDatetime t ]}) ;
    create "activity" (
          t ← datetime_sub (utcnow 2%nat) (timedelta_days 1) ;
          Activity.validate
            {[ "type" := VStr "document_uploaded"; "message" := VStr "Evidence.pdf uploaded";
               "actor" := VStr "John Smith"; "occurred_at" := VDatetime t ]})).

(** The body of the [try] block, for an available store. *)
Definition seed_body (utcnow : Clock) : script unit :=
  _ ← seed_policies ;
  _ ← seed_invoices ;
  _ ← seed_renewals ;
  _ ← seed_updates ;
  _ ← seed_team ;
  seed_activities utcnow.

(** [seed_demo]: every guard starts with [db and ...], so nothing runs
    without a store; [except Exception: pass] drops the exception and keeps
    the store as the body left it. *)
Definition seed_demo (utcnow : Clock) (db : Store) : Store :=
  match db with
  | Some d => Some (snd (seed_body utcnow d))
  | None => None
  end.
(** *** [GET /api/notification] *)

Definition get_notification : result Notification.t :=
  Notification.validate
    {[ "title" := VStr "Outstanding Invoices";
       "message" := VStr "Outstanding Invoices: $24,500 – Payment due Nov 15 & Nov 20";
       "level" := VStr "warning" ]}.

(** *** [GET /api/dashboard] *)

Definition get_dashboard_counts (db : Store) : result DashboardCounts.t :=
  let active :=
    match db with
    | Some d => count_documents d "policy" [("status", "active")]
    | None => 3%Z
    end in
  let outstanding :=
    match db with
    | Some d => find d "invoice" [("status", "outstanding")]
    | None => []
    end in
  let outstanding_count :=
    if truthy outstanding then Z.of_nat (length outstanding) else 2%Z in
  outstanding_total ←
    (if truthy outstanding
     then py_sum ((λ i, default (VInt 0) (i !! "amount")) <$> outstanding)
     else Ok (NInt 24500)) ;
  let renewals_due :=
    match db with
    | Some d => count_documents d "renewal" [("status", "due")]
    | None => 0%Z
    end in
  let risk_updates :=
    match db with
    | Some d => count_documents d "update" []
    | None => 1%Z
    end in
  DashboardCounts.validate
    {[ "active_policies" := VInt active;
       "outstanding_invoices" := VInt outstanding_count;
       "outstanding_total" := number_value outstanding_total;
       "renewals_due" := VInt renewals_due;
       "risk_updates" := VInt risk_updates ]}.

(** [get_documents(name) if db else []] *)
Definition docs_of (db : Store) (collection_name : string) : list doc :=
  match db with
  | Some d => get_documents d collection_name
  | None => []
  end.

(** *** [GET /api/policies] *)

Definition policy_kwargs (d : doc) : doc :=
  let d := delete "_id" d in
  foldl (λ d k, date_if_datetime k d) d ["start_date"; "end_date"].

Definition list_policies (db : Store) : result (list Policy.t) :=
  let docs := docs_of db "policy" in
  for_each (λ d, Policy.validate (policy_kwargs d)) docs.

(** *** [POST /api/documents/upload] and [GET /api/documents] *)

Definition upload_document (file_filename : string) (file_content_type : option string)
    (policy_number : option string) (db : Store) : result doc * Store :=
  match DocumentItem.validate
          {[ "filename" := VStr file_filename;
             "content_type" := dump_optional VStr file_content_type;
             "size_bytes" := VNone;
             "category" := VStr "Uploaded";
             "policy_number" := dump_optional VStr policy_number ]} with
  | Ok item =>
      let db' :=
        match db with
        | Some d => Some (create_document "documentitem" item d)
        | None => None
        end in
      (Ok {[ "status" := VStr "ok"; "filename" := VStr file_filename ]}, db')
  | Raise e => (Raise e, db)
  end.

Definition document_kwargs (d : doc) : doc := delete "_id" d.

Definition list_documents (db : Store) : result (list DocumentItem.t) :=
  let docs := docs_of db "documentitem" in
  for_each (λ d, DocumentItem.validate (document_kwargs d)) docs.

(** *** [GET /api/invoices] *)

Definition invoice_kwargs (d : doc) : doc :=
  date_if_datetime "due_date" (delete "_id" d).

Definition list_invoices (db : Store) : result (list Invoice.t) :=
  let docs := docs_of db "invoice" in
  let docs := invoice_kwargs <$> docs in
  for_each Invoice.validate docs.

(** *** [GET /api/renewals] *)

Definition renewal_kwargs (d : doc) : doc :=
  date_if_datetime "renewal_date" (delete "_id" d).

Definition list_renewals (db : Store) : result (list Renewal.t) :=
  let docs := docs_of db "renewal" in
  let docs := renewal_kwargs <$> docs in
  for_each Renewal.validate docs.

(** *** [GET /api/updates] *)

Definition update_kwargs (d : doc) : doc := delete "_id" d.

Definition updates_fallback : result (list doc) :=
  u ← Update.validate
        {[ "title" := VStr "New Cyber Insurance Requirements for 2025";
           "description" :=
             VStr "Multi-factor authentication and endpoint detection are now standard.";
           "date_str" := VStr "Nov 10, 2024" ]} ;
  Ok [model_dump u].

Definition list_updates (db : Store) : result (list Update.t) :=
  let docs := docs_of db "update" in
  let docs := update_kwargs <$> docs in
  docs ← (if truthy docs then Ok docs else updates_fallback) ;
  for_each Update.validate docs.

(** *** [GET /api/team] *)

Definition team_kwargs (d : doc) : doc := delete "_id" d.

Definition team_fallback : result (list doc) :=
  m1 ← TeamMember.validate
        {[ "name" := VStr "Monique Reibelt"; "role" := VStr "Senior Broker";
           "email" := VStr "monique@example.com"; "phone" := VStr "+1 (555) 123-4567";
           "linkedin" := VStr "https://linkedin.com/in/moniquereibelt" ]} ;
  m2 ← TeamMember.validate
        {[ "name" := VStr "Stuart Madden"; "role" := VStr "Service Agent";
           "email" := VStr "stuart@example.com"; "phone" := VStr "+1 (555) 987-6543";
           "linkedin" := VStr "https://linkedin.com/in/stuartmadden" ]} ;
  Ok [model_dump m1; model_dump m2].

Definition list_team (db : Store) : result (list TeamMember.t) :=
  let docs := docs_of db "teammember" in
  let docs := team_kwargs <$> docs in
  docs ← (if truthy docs then Ok docs else team_fallback) ;
  for_each TeamMember.validate docs.

(** *** [GET /api/activities] *)

Definition activity_kwargs (d : doc) : doc :=
  isoformat_if_datetime "occurred_at" (delete "_id" d).

Definition activities_fallback (utcnow : Clock) : result (list doc) :=
  a1 ← Activity.validate
        {[ "type" := VStr "policy_renewal";
           "message" := VStr "Commercial Property Insurance renewed for another year";
           "actor" := VStr "system"; "occurred_at" := VDatetime (utcnow 0%nat) ]} ;
  a2 ← Activity.validate
        {[ "type" := VStr "payment_made"; "message" := VStr "Payment made";
           "actor" := VStr "John Smith"; "occurred_at" := VDatetime (utcnow 1%nat) ]} ;
  a3 ← Activity.validate
        {[ "type" := VStr "document_uploaded"; "message" := VStr "Document uploaded";
           "actor" := VStr "John Smith"; "occurred_at" := VDatetime (utcnow 2%nat) ]} ;
  Ok [model_dump a1; model_dump a2; model_dump a3].

Definition list_activities (utcnow : Clock) (db : Store) : result (list Activity.t) :=
  let docs := docs_of db "activity" in
  let docs := activity_kwargs <$> docs in
  docs ← (if truthy docs then Ok docs else activities_fallback utcnow) ;
  for_each Activity.validate docs.
(** *** [GET /] *)

Definition read_root : doc := {[ "message" := VStr "Insurance Portal Backend Running" ]}.

(** *** The routes of [app] *)

Inductive request :=
| GET_root
| GET_notification
| GET_dashboard
| GET_policies
| POST_documents_upload (file_filename : string) (file_content_type : option string)
                        (policy_number : option string)
| GET_documents
| GET_invoices
| GET_renewals
| GET_updates
| GET_team
| GET_activities.

Inductive response :=
| Json (body : doc)
| OneNotification (body : Notification.t)
| Dashboard (body : DashboardCounts.t)
| Policies (body : list Policy.t)
| Documents (body : list DocumentItem.t)
| Invoices (body : list Invoice.t)
| Renewals (body : list Renewal.t)
| Updates (body : list Update.t)
| Team (body : list TeamMember.t)
| Activities (body : list Activity.t).

(** One request against the store: the response, or the exception that the
    framework turns into a server error, and the store afterwards. *)
Definition app_call (utcnow : Clock) (db : Store) (req : request) : result response * Store :=
  match req with
  | GET_root => (Ok (Json read_root), db)
  | GET_notification => (OneNotification <$> get_notification, db)
  | GET_dashboard => (Dashboard <$> get_dashboard_counts db, db)
  | GET_policies => (Policies <$> list_policies db, db)
  | POST_documents_upload file_filename file_content_type policy_number =>
      let '(r, db') := upload_document file_filename file_content_type policy_number db in
      (Json <$> r, db')
  | GET_documents => (Documents <$> list_documents db, db)
  | GET_invoices => (Invoices <$> list_invoices db, db)
  | GET_renewals => (Renewals <$> list_renewals db, db)
  | GET_updates => (Updates <$> list_updates db, db)
  | GET_team => (Team <$> list_team db, db)
  | GET_activities => (Activities <$> list_activities utcnow db, db)
  end.
End app.

(** ** An instance to run the handlers on concrete stores *)

(** Days between 0001-01-01 and a civil date, and back (proleptic Gregorian
    calendar). *)
Definition days_from_civil (d : date) : Z :=
  let y := (Z.of_N (year d) - (if (month d <=? 2)%N then 1 else 0))%Z in
  let m := Z.of_N (month d) in
  let era := (y / 400)%Z in
  let yoe := (y - era * 400)%Z in
  let doy := ((153 * (if (2 <? m)%Z then m - 3 else m + 9) + 2) / 5 + Z.of_N (day d) - 1)%Z in
  let doe := (yoe * 365 + yoe / 4 - yoe / 100 + doy)%Z in
  (era * 146097 + doe - 306)%Z.

Definition civil_from_days (n : Z) : date :=
  let z := (n + 306)%Z in
  let era := (z / 146097)%Z in
  let doe := (z - era * 146097)%Z in
  let yoe := ((doe - doe / 1460 + doe / 36524 - doe / 146096) / 365)%Z in
  let doy := (doe - (365 * yoe + yoe / 4 - yoe / 100))%Z in
  let mp := ((5 * doy + 2) / 153)%Z in
  let d := (doy - (153 * mp + 2) / 5 + 1)%Z in
  let m := (if (mp <? 10)%Z then mp + 3 else mp - 9)%Z in
  let y := (yoe + era * 400 + (if (m <=? 2)%Z then 1 else 0))%Z in
  Date (Z.to_N y) (Z.to_N m) (Z.to_N d).

Definition reference_datetime_sub (t : datetime) (delta : timedelta) : result datetime :=
  let micros :=
    (((days_from_civil (date_part t) - days delta) * 86400
      + (Z.of_N (hour t) * 3600 + Z.of_N (minute t) * 60 + Z.of_N (second t))
      - seconds delta) * 1000000
     + Z.of_N (microsecond t) - microseconds delta)%Z in
  let secs := (micros / 1000000)%Z in
  let day_no := (secs / 86400)%Z in
  let sod := (secs mod 86400)%Z in
  let d := civil_from_days day_no in
  if ((1 <=? year d) && (year d <=? 9999))%N && (0 <=? day_no + 306)%Z
  then Ok (Datetime d (Z.to_N (sod / 3600)) (Z.to_N (sod mod 3600 / 60))
                    (Z.to_N (sod mod 60)) (Z.to_N (micros mod 1000000)))
  else Raise OverflowError.

Global Instance reference_arith : DatetimeArith := reference_datetime_sub.

(** An address of the shape [local@domain] with a single [@]. *)
Fixpoint at_signs (s : string) : nat :=
  match s with
  | EmptyString => 0
  | String c s' => (if Ascii.eqb c "@"%char then 1 else 0) + at_signs s'
  end.

Definition reference_email (s : string) : option string :=
  if (at_signs s =? 1)%nat && negb (String.prefix "@" s) && negb (String.prefix "@" (String.rev s))
  then Some s else None.

(** Reading back the text that [isoformat] writes. *)
Definition digit (c : ascii) : option N :=
  let n := N_of_ascii c in
  if ((48 <=? n) && (n <=? 57))%N then Some (n - 48)%N else None.

Fixpoint number_of (s : string) (acc : N) : option N :=
  match s with
  | EmptyString => Some acc
  | String c s' => d ← digit c ; number_of s' (acc * 10 + d)%N
  end.

Definition digits_at (s : string) (start len : nat) : option N :=
  number_of (String.substring start len s) 0.

Definition char_at (s : string) (i : nat) (c : ascii) : bool :=
  match String.get i s with
  | Some c' => Ascii.eqb c c'
  | None => false
  end.

Definition parse_isoformat (s : string) : option datetime :=
  let n := String.length s in
  if ((n =? 19) || (n =? 26))%nat
     && char_at s 4 "-" && char_at s 7 "-" && char_at s 10 "T"
     && char_at s 13 ":" && char_at s 16 ":" && ((n =? 19)%nat || char_at s 19 ".")
  then
    y ← digits_at s 0 4 ; mo ← digits_at s 5 2 ; d ← digits_at s 8 2 ;
    h ← digits_at s 11 2 ; mi ← digits_at s 14 2 ; se ← digits_at s 17 2 ;
    us ← (if (n =? 19)%nat then Some 0%N else digits_at s 20 6) ;
    if ((1 <=? y) && (1 <=? mo) && (mo <=? 12) && (1 <=? d) && (d <=? 31)
        && (h <? 24) && (mi <? 60) && (se <? 60))%N
    then Some (Datetime (Date y mo d) h mi se us)
    else None
  else None.

(** No lax conversions except the one the handlers rely on: ISO-8601 text
    for a datetime field.  Other inputs of a foreign type are rejected. *)
Definition reference_pydantic : Pydantic :=
  {| lax_int := λ _, None;
     lax_float := λ _, None;
     lax_date := λ _, None;
     lax_datetime := λ v, match v with VStr s => parse_isoformat s | _ => None end;
     validate_email := reference_email;
     validate_email_monique := eq_refl;
     validate_email_stuart := eq_refl |}.

(** ** The literal records of the handlers, as entities *)

Definition the_notification : Notification.t :=
  Notification.Make "Outstanding Invoices"
    "Outstanding Invoices: $24,500 – Payment due Nov 15 & Nov 20" Notification.warning.

Definition fallback_counts : DashboardCounts.t :=
  DashboardCounts.Make 3 2 24500 0 1.

Definition fallback_updates : list Update.t :=
  [ Update.Make "New Cyber Insurance Requirements for 2025" (Some "Latest Update")
      (Some "Multi-factor authentication and endpoint detection are now standard.")
      "Nov 10, 2024" ].

Definition fallback_team : list TeamMember.t :=
  [ TeamMember.Make "Monique Reibelt" "Senior Broker" "monique@example.com"
      "+1 (555) 123-4567" (Some "https://linkedin.com/in/moniquereibelt");
    TeamMember.Make "Stuart Madden" "Service Agent" "stuart@example.com"
      "+1 (555) 987-6543" (Some "https://linkedin.com/in/stuartmadden") ].

Definition fallback_activities (utcnow : Clock) : list Activity.t :=
  [ Activity.Make "policy_renewal" "Commercial Property Insurance renewed for another year"
      (Some "system") (Some (utcnow 0%nat));
    Activity.Make "payment_made" "Payment made" (Some "John Smith") (Some (utcnow 1%nat));
    Activity.Make "document_uploaded" "Document uploaded" (Some "John Smith")
      (Some (utcnow 2%nat)) ].

(** ** Stores used as concrete inputs *)

Definition empty_database : Database := {| collections := ∅; next_id := 0 |}.

(** An available store whose only invoice has been paid. *)
Definition paid_database : Database :=
  {| collections :=
       {[ "invoice" :=
            [ {[ "_id" := VObjectId 0; "invoice_number" := VStr "INV-001";
                 "amount" := VFloat 15000; "due_date" := VDatetime (datetime_ymd 2025 11 15);
                 "status" := VStr "paid" ]} ] ]};
     next_id := 1 |}.

(** An available store with a single outstanding invoice of 100. *)
Definition small_invoice_database : Database :=
  {| collections :=
       {[ "invoice" :=
            [ {[ "_id" := VObjectId 0; "invoice_number" := VStr "INV-100";
                 "amount" := VFloat 100; "due_date" := VDatetime (datetime_ymd 2025 11 15);
                 "status" := VStr "outstanding" ]} ] ]};
     next_id := 1 |}.

(** A stored policy without its start date, and the same policy starting at
    a given instant. *)
Definition policy_record : doc :=
  {[ "_id" := VObjectId 0; "policy_number" := VStr "CP-12345";
     "product" := VStr "Commercial Property"; "status" := VStr "active";
     "end_date" := VDatetime (datetime_ymd 2024 12 31);
     "premium" := VFloat 12000; "insured_entity" := VStr "Acme Corp" ]}.

Definition policy_starting (t : datetime) : doc :=
  <["start_date" := VDatetime t]> policy_record.

Definition policy_database (t : datetime) : Database :=
  {| collections := {[ "policy" := [policy_starting t] ]}; next_id := 1 |}.

Definition new_year_morning : datetime := Datetime (Date 2024 1 1) 9 30 0 0.

(** ** Vocabulary of the statements *)

(** The store has nothing to offer for a collection: it is unavailable, or
    it returns zero records. *)
Definition store_has_nothing (db : Store) (collection_name : string) : Prop :=
  db = None ∨ ∃ d, db = Some d ∧ get_documents d collection_name = [].

(** A list handler returns [defaults] exactly when the store has nothing for
    its collection; in every other case the answer is made of the stored
    records, stripped and coerced by [kwargs] and validated, one entity per
    stored record. *)
Definition defaults_exactly_when_nothing {E} (handler : Store → result (list E))
    (collection_name : string) (kwargs : doc → doc) (validate : doc → result E)
    (defaults : list E) : Prop :=
  ∀ db : Store,
    (store_has_nothing db collection_name → handler db = Ok defaults)
    ∧ (¬ store_has_nothing db collection_name →
         handler db = for_each validate (kwargs <$> docs_of db collection_name)
         ∧ ∀ r, handler db = Ok r →
                r ≠ [] ∧ length r = length (docs_of db collection_name)).


(** A list handler only returns records that have exactly the declared
    fields of the schema, each of its declared type, and no [_id]; an entity
    made from a stored record was validated after the [_id] had been taken
    out of the record. *)
Definition returns_conforming {E} `{BaseModel E} (handler : Store → result (list E))
    (collection_name : string) (kwargs : doc → doc) (validate : doc → result E)
    (schema : list (string * ftype)) : Prop :=
  ∀ (db : Store) (r : list E),
    handler db = Ok r →
    Forall (λ e, conforms schema (model_dump e) ∧ model_dump e !! "_id" = None) r
    ∧ (¬ store_has_nothing db collection_name →
         Forall2 (λ d e, kwargs d !! "_id" = None ∧ validate (kwargs d) = Ok e)
                 (docs_of db collection_name) r).





(** A script leaves every collection alone that holds a record when the
    script starts. *)
Definition keeps_non_empty {A} (m : script A) : Prop :=
  ∀ (d : Database) (collection_name : string),
    get_documents d collection_name ≠ [] →
    get_documents (snd (m d)) collection_name = get_documents d collection_name.

(** A script writes to no collection but [target]. *)
Definition writes_only {A} (target : string) (m : script A) : Prop :=
  ∀ (d : Database) (collection_name : string),
    collection_name ≠ target →
    get_documents (snd (m d)) collection_name = get_documents d collection_name.

(** The entity that [upload_document] constructs. *)
Definition uploaded_item (file_filename : string) (file_content_type : option string)
    (policy_number : option string) : DocumentItem.t :=
  DocumentItem.Make file_filename file_content_type None (Some "Uploaded") policy_number.

(** What two activities share when the time stamp is left out. *)
Definition without_time (a : Activity.t) : string * string * option string :=
  (Activity.type a, Activity.message a, Activity.actor a).

(** A clock that reads the same instant at every call. *)
Definition frozen_clock (t : datetime) : Clock := λ _, t.

(** An exception of a handler is always a validation error. *)
Definition only_validation_error {A} (r : result A) : Prop :=
  ∀ e, r = Raise e → e = ValidationError.

(** A list handler fails exactly when some stored record of its collection
    fails validation, and then with a validation error: one bad record takes
    the whole listing down. *)
Definition fails_exactly_on_bad_record {E} (handler : Store → result (list E))
    (collection_name : string) (kwargs : doc → doc) (validate : doc → result E) : Prop :=
  ∀ db : Store,
    only_validation_error (handler db)
    ∧ (is_ok (handler db) = false
       ↔ Exists (λ d, is_ok (validate (kwargs d)) = false) (docs_of db collection_name)).

(** A stored record without the key [k]. *)
Definition lacks (k : string) (d : doc) : bool :=
  match d !! k with
  | None => true
  | Some _ => false
  end.

Definition listed_active (p : Policy.t) : bool :=
  match Policy.status p with
  | Policy.active => true
  | _ => false
  end.

Definition listed_due (r : Renewal.t) : bool :=
  match Renewal.status r with
  | Renewal.due => true
  | _ => false
  end.

(** A store with one policy and one renewal, both stored without a status. *)
Definition statusless_database : Database :=
  {| collections :=
       {[ "policy" :=
            [ {[ "_id" := VObjectId 0; "policy_number" := VStr "CP-12345";
                 "product" := VStr "Commercial Property";
                 "start_date" := VDatetime (datetime_ymd 2024 1 1);
                 "end_date" := VDatetime (datetime_ymd 2024 12 31);
                 "premium" := VFloat 12000; "insured_entity" := VStr "Acme Corp" ]} ];
          "renewal" :=
            [ {[ "_id" := VObjectId 1; "policy_number" := VStr "CP-12345";
                 "product" := VStr "Commercial Property";
                 "renewal_date" := VDatetime (datetime_ymd 2025 1 1) ]} ] ]};
     next_id := 2 |}.

(** The entities that [seed_demo] constructs for policies, invoices and
    renewals; those for updates and team members are [fallback_updates] and
    [fallback_team]. *)
Definition seeded_policies : list Policy.t :=
  [ Policy.Make "CP-12345" "Commercial Property" Policy.active
      (Date 2024 1 1) (Date 2024 12 31) 12000 "Acme Corp";
    Policy.Make "GL-67890" "General Liability" Policy.active
      (Date 2024 3 1) (Date 2025 2 28) 8500 "Acme Corp";
    Policy.Make "CY-22222" "Cyber" Policy.active
      (Date 2024 6 1) (Date 2025 5 31) 4000 "Acme Corp" ].

Definition seeded_invoices : list Invoice.t :=
  [ Invoice.Make "INV-001" 15000 (Date 2025 11 15) Invoice.outstanding None;
    Invoice.Make "INV-002" 9500 (Date 2025 11 20) Invoice.outstanding None ].

Definition seeded_renewals : list Renewal.t :=
  [ Renewal.Make "XX-0000" "Directors & Officers" (Date 2026 2 1) Renewal.not_required ].

(** The records that successive [create_document] calls write for a list of
    entities, the first under identifier [id]. *)
Fixpoint number_from {E} `{BaseModel E} (id : N) (es : list E) : list doc :=
  match es with
  | [] => []
  | e :: es' => <["_id" := VObjectId id]> (model_dump e) :: number_from (N.succ id) es'
  end.

Definition insert_all {E} `{BaseModel E} (collection_name : string) (es : list E)
    (d : Database) : Database :=
  foldl (λ d e, create_document collection_name e d) d es.

(** What a guarded block of [seed_demo] leaves behind when all its
    [create_document] calls go through. *)
Definition fill_if_empty {E} `{BaseModel E} (collection_name : string) (es : list E)
    (d : Database) : Database :=
  if (count_documents d collection_name [] =? 0)%Z
  then insert_all collection_name es d
  else d.

Definition seeded_before_activities (d : Database) : Database :=
  fill_if_empty "teammember" fallback_team
    (fill_if_empty "update" fallback_updates
       (fill_if_empty "renewal" seeded_renewals
          (fill_if_empty "invoice" seeded_invoices
             (fill_if_empty "policy" seeded_policies d)))).

(** A script never turns a non-empty collection into an empty one. *)
Definition never_empties {A} (collection_name : string) (m : script A) : Prop :=
  ∀ d : Database,
    get_documents d collection_name ≠ [] →
    get_documents (snd (m d)) collection_name ≠ [].

(** An amount that [sum] can add up: a number, or no [amount] key at all
    (which counts as 0). *)
Definition summable_amount (i : doc) : bool :=
  match i !! "amount" with
  | None | Some (VInt _) | Some (VFloat _) => true
  | Some _ => false
  end.

(** The integer amount of an invoice record, 0 when there is none. *)
Definition int_amount (i : doc) : Z :=
  match i !! "amount" with
  | Some (VInt z) => z
  | _ => 0
  end.

Definition has_int_amount (i : doc) : bool :=
  match i !! "amount" with
  | None | Some (VInt _) => true
  | Some _ => false
  end.

(** A store with two outstanding invoices, one with an integer amount and
    one without amount, and a store whose outstanding invoice has a null
    amount. *)
Definition int_invoice_database : Database :=
  {| collections :=
       {[ "invoice" :=
            [ {[ "_id" := VObjectId 0; "invoice_number" := VStr "INV-001";
                 "amount" := VInt 15000; "status" := VStr "outstanding" ]};
              {[ "_id" := VObjectId 1; "invoice_number" := VStr "INV-002";
                 "status" := VStr "outstanding" ]} ] ]};
     next_id := 2 |}.

Definition null_amount_database : Database :=
  {| collections :=
       {[ "invoice" :=
            [ {[ "_id" := VObjectId 0; "invoice_number" := VStr "INV-001";
                 "amount" := VNone; "status" := VStr "outstanding" ]} ] ]};
     next_id := 1 |}.

(** A store whose only policy record has no start date. *)
Definition broken_policy_database : Database :=
  {| collections := {[ "policy" := [policy_record] ]}; next_id := 1 |}.

(** * Properties *)

(** ** Loops over documents *)

Lemma for_each_length {A B} (f : A → result B) (l : list A) (r : list B) :
  for_each f l = Ok r → length r = length l.
Proof.
  revert r. induction l as [|x l IH]; intros r; simpl.
  - by intros [= <-].
  - destruct (f x) as [y|]; simpl; [|done].
    destruct (for_each f l) as [ys|]; simpl; [|done].
    intros [= <-]. simpl. f_equal. by apply IH.
Qed.

Lemma for_each_Forall2 {A B} (f : A → result B) (l : list A) (r : list B) :
  for_each f l = Ok r ↔ Forall2 (λ x y, f x = Ok y) l r.
Proof.
  revert r. induction l as [|x l IH]; intros r; simpl.
  - split.
    + intros [= <-]. constructor.
    + by inversion 1.
  - split.
    + destruct (f x) as [y|] eqn:Hx; simpl; [|done].
      destruct (for_each f l) as [ys|] eqn:Hl; simpl; [|done].
      intros [= <-]. constructor; [done|]. by apply IH.
    + inversion 1 as [|? y ? ys Hx Hl]; subst.
      rewrite Hx. simpl. apply IH in Hl. rewrite Hl. done.
Qed.

Lemma for_each_fmap {A B C} (f : B → result C) (g : A → B) (l : list A) :
  for_each f (g <$> l) = for_each (λ x, f (g x)) l.
Proof.
  induction l as [|x l IH]; [done|].
  rewrite fmap_cons. simpl. by rewrite IH.
Qed.


Lemma truthy_fmap {A B} (g : A → B) (l : list A) : truthy (g <$> l) = truthy l.
Proof. by destruct l. Qed.

Lemma bind_Ok {A B} (r : result A) (k : A → result B) (b : B) :
  r ≫= k = Ok b → ∃ a, r = Ok a ∧ k a = Ok b.
Proof. destruct r as [a|]; [|done]. intros Hk. by exists a. Qed.

(** Takes a successful sequence of binds apart, one step at a time. *)
Ltac bind_inv H :=
  repeat (let a := fresh "x" in
          let Ha := fresh "Hx" in
          apply bind_Ok in H as (a & Ha & H)).

Section properties.
Context {pydantic : Pydantic} {arith : DatetimeArith}.

(** ** Dashboard *)

(** C2.  Without a store the dashboard shows exactly the literal counts:
    3 active policies, 2 outstanding invoices totalling 24500, no renewal
    due and 1 risk update. *)
Theorem dashboard_without_store :
  get_dashboard_counts None = Ok fallback_counts
  ∧ fallback_counts =
      {| DashboardCounts.active_policies := 3;
         DashboardCounts.outstanding_invoices := 2;
         DashboardCounts.outstanding_total := 24500;
         DashboardCounts.renewals_due := 0;
         DashboardCounts.risk_updates := 1 |}.
Proof. split; [vm_compute|]; reflexivity. Qed.
Lemma DashboardCounts_validate_kwargs (a b c e : Z) (total : value) :
  DashboardCounts.validate
    {[ "active_policies" := VInt a; "outstanding_invoices" := VInt b;
       "outstanding_total" := total; "renewals_due" := VInt c;
       "risk_updates" := VInt e ]}
  = (x ← float_field total ; Ok (DashboardCounts.Make a b x c e)).
Proof. reflexivity. Qed.

(** With a store, three of the five fields are counts over the store.  The
    two invoice fields are computed from the outstanding invoices when there
    is at least one, and are the literals 2 and 24500 when there is none. *)
Lemma dashboard_with_store (d : Database) (r : DashboardCounts.t) :
  get_dashboard_counts (Some d) = Ok r →
  let outstanding := find d "invoice" [("status", "outstanding")] in
  DashboardCounts.active_policies r = count_documents d "policy" [("status", "active")]
  ∧ DashboardCounts.renewals_due r = count_documents d "renewal" [("status", "due")]
  ∧ DashboardCounts.risk_updates r = count_documents d "update" []
  ∧ (outstanding ≠ [] →
       DashboardCounts.outstanding_invoices r = Z.of_nat (length outstanding)
       ∧ ∃ total,
           py_sum ((λ i, default (VInt 0) (i !! "amount")) <$> outstanding) = Ok total
           ∧ float_field (number_value total) = Ok (DashboardCounts.outstanding_total r))
  ∧ (outstanding = [] →
       DashboardCounts.outstanding_invoices r = 2%Z
       ∧ DashboardCounts.outstanding_total r = 24500%float).
Proof.
  unfold get_dashboard_counts. intros Hr. cbv zeta in *.
  set (outstanding := find d "invoice" _) in *.
  destruct outstanding as [|i rest] eqn:Hout.
  - simpl in Hr. rewrite DashboardCounts_validate_kwargs in Hr.
    injection Hr as <-. simpl. repeat split; try done.
  - change (truthy (i :: rest)) with true in Hr. cbv iota in Hr.
    destruct (py_sum _) as [total|] eqn:Hsum; [|done].
    simpl in Hr. rewrite DashboardCounts_validate_kwargs in Hr.
    destruct (float_field (number_value total)) as [x|] eqn:Hx; [|done].
    injection Hr as <-. simpl. repeat split; try done.
    by exists total.
Qed.

(** C3, evaluated on an available store whose only invoice is paid: the
    counts over policies, renewals and updates come from the store, but the
    dashboard reports 2 outstanding invoices totalling 24500, the literals
    of the store-less case, instead of 0 and 0. *)
Theorem dashboard_paid_invoice_still_outstanding :
  find paid_database "invoice" [("status", "outstanding")] = []
  ∧ get_dashboard_counts (Some paid_database)
    = Ok {| DashboardCounts.active_policies := 0;
            DashboardCounts.outstanding_invoices := 2;
            DashboardCounts.outstanding_total := 24500;
            DashboardCounts.renewals_due := 0;
            DashboardCounts.risk_updates := 0 |}.
Proof. split; vm_compute; reflexivity. Qed.

(** ** Notification *)

Lemma get_notification_fixed : get_notification = Ok the_notification.
Proof. reflexivity. Qed.

(** C10.  [GET /api/notification] answers with the same fixed notification
    for every clock and every store, available or not, and leaves the store
    alone; in particular it names 24,500 also for a store whose outstanding
    invoices sum up to 100. *)
Theorem notification_is_fixed :
  (∀ (utcnow : Clock) (db : Store),
     app_call utcnow db GET_notification = (Ok (OneNotification the_notification), db))
  ∧ Notification.title the_notification = "Outstanding Invoices"
  ∧ Notification.message the_notification
      = "Outstanding Invoices: $24,500 – Payment due Nov 15 & Nov 20"
  ∧ Notification.level the_notification = Notification.warning
  ∧ (DashboardCounts.outstanding_total <$> get_dashboard_counts (Some small_invoice_database))
      = Ok 100%float.
Proof.
  split.
  - intros utcnow db. unfold app_call. by rewrite get_notification_fixed.
  - repeat split.
Qed.
(** ** Fallback records *)

Lemma store_has_nothing_docs_of (db : Store) (collection_name : string) :
  store_has_nothing db collection_name ↔ docs_of db collection_name = [].
Proof.
  unfold store_has_nothing. destruct db as [d|]; simpl.
  - split.
    + intros [?|(d' & [= <-] & ?)]; done.
    + intros Hd. right. by exists d.
  - split; [done|]. by left.
Qed.

Lemma updates_fallback_dumps : updates_fallback = Ok (model_dump <$> fallback_updates).
Proof. reflexivity. Qed.

Lemma updates_fallback_validates :
  for_each Update.validate (model_dump <$> fallback_updates) = Ok fallback_updates.
Proof. reflexivity. Qed.

Lemma TeamMember_validate_kwargs (name role email phone linkedin : string) :
  TeamMember.validate
    {[ "name" := VStr name; "role" := VStr role; "email" := VStr email;
       "phone" := VStr phone; "linkedin" := VStr linkedin ]}
  = (email' ← of_option (validate_email email) ;
     Ok (TeamMember.Make name role email' phone (Some linkedin))).
Proof. reflexivity. Qed.

Lemma team_fallback_dumps : team_fallback = Ok (model_dump <$> fallback_team).
Proof.
  unfold team_fallback. rewrite !TeamMember_validate_kwargs.
  rewrite validate_email_monique, validate_email_stuart. reflexivity.
Qed.

Lemma team_fallback_validates :
  for_each TeamMember.validate (model_dump <$> fallback_team) = Ok fallback_team.
Proof.
  unfold fallback_team. simpl.
  change (model_dump ?x) with (TeamMember.model_dump x).
  unfold TeamMember.model_dump. simpl.
  rewrite !TeamMember_validate_kwargs.
  rewrite validate_email_monique, validate_email_stuart. reflexivity.
Qed.

Lemma activities_fallback_dumps (utcnow : Clock) :
  activities_fallback utcnow = Ok (model_dump <$> fallback_activities utcnow).
Proof. reflexivity. Qed.

Lemma activities_fallback_validates (utcnow : Clock) :
  for_each Activity.validate (model_dump <$> fallback_activities utcnow)
  = Ok (fallback_activities utcnow).
Proof. reflexivity. Qed.
(** ** List handlers and their defaults *)

Lemma plain_list_spec {E} (validate : doc → result E) (kwargs : doc → doc)
    (collection_name : string) :
  defaults_exactly_when_nothing
    (λ db, for_each validate (kwargs <$> docs_of db collection_name))
    collection_name kwargs validate [].
Proof.
  intros db. rewrite store_has_nothing_docs_of. split.
  - by intros ->.
  - intros Hne. split; [done|]. intros r Hr.
    apply for_each_length in Hr. rewrite length_fmap in Hr. split; [|done].
    destruct r; [|done]. by destruct (docs_of db collection_name).
Qed.

Lemma defaulting_list_spec {E} (validate : doc → result E) (kwargs : doc → doc)
    (collection_name : string) (fallback : result (list doc))
    (dumped : list doc) (defaults : list E) :
  fallback = Ok dumped →
  for_each validate dumped = Ok defaults →
  defaults_exactly_when_nothing
    (λ db, let docs := kwargs <$> docs_of db collection_name in
           docs ← (if truthy docs then Ok docs else fallback) ;
           for_each validate docs)
    collection_name kwargs validate defaults.
Proof.
  intros Hfallback Hdefaults db. rewrite store_has_nothing_docs_of. split.
  - intros ->. simpl. by rewrite Hfallback.
  - intros Hne. cbv zeta. rewrite truthy_fmap.
    destruct (docs_of db collection_name) as [|x l] eqn:Hdocs; [done|].
    split; [done|]. simpl truthy. cbv iota. intros r Hr.
    apply for_each_length in Hr. rewrite length_fmap in Hr. split; [|done].
    by destruct r.
Qed.

Lemma list_policies_spec :
  defaults_exactly_when_nothing list_policies "policy" policy_kwargs Policy.validate [].
Proof.
  intros db. unfold list_policies. cbv zeta. rewrite <- for_each_fmap.
  apply plain_list_spec.
Qed.

Lemma list_documents_spec :
  defaults_exactly_when_nothing list_documents "documentitem" document_kwargs
    DocumentItem.validate [].
Proof.
  intros db. unfold list_documents. cbv zeta. rewrite <- for_each_fmap.
  apply plain_list_spec.
Qed.

Lemma list_invoices_spec :
  defaults_exactly_when_nothing list_invoices "invoice" invoice_kwargs Invoice.validate [].
Proof. apply plain_list_spec. Qed.

Lemma list_renewals_spec :
  defaults_exactly_when_nothing list_renewals "renewal" renewal_kwargs Renewal.validate [].
Proof. apply plain_list_spec. Qed.

Lemma list_updates_spec :
  defaults_exactly_when_nothing list_updates "update" update_kwargs Update.validate
    fallback_updates.
Proof.
  apply (defaulting_list_spec _ _ _ _ _ _ updates_fallback_dumps updates_fallback_validates).
Qed.

Lemma list_team_spec :
  defaults_exactly_when_nothing list_team "teammember" team_kwargs TeamMember.validate
    fallback_team.
Proof.
  apply (defaulting_list_spec _ _ _ _ _ _ team_fallback_dumps team_fallback_validates).
Qed.

Lemma list_activities_spec (utcnow : Clock) :
  defaults_exactly_when_nothing (list_activities utcnow) "activity" activity_kwargs
    Activity.validate (fallback_activities utcnow).
Proof.
  apply (defaulting_list_spec _ _ _ _ _ _ (activities_fallback_dumps utcnow)
           (activities_fallback_validates utcnow)).
Qed.




Lemma list_updates_nothing (db : Store) :
  store_has_nothing db "update" → list_updates db = Ok fallback_updates.
Proof. apply list_updates_spec. Qed.

Lemma list_team_nothing (db : Store) :
  store_has_nothing db "teammember" → list_team db = Ok fallback_team.
Proof. apply list_team_spec. Qed.

Lemma list_activities_nothing (utcnow : Clock) (db : Store) :
  store_has_nothing db "activity" →
  list_activities utcnow db = Ok (fallback_activities utcnow).
Proof. apply list_activities_spec. Qed.

(** C4, as the handlers have it.  Two calls made while the store has nothing
    for the collection return the same records for updates and for team
    members.  For activities they return the same three records as far as
    type, message and actor go, and each record carries the clock reading of
    its own call as [occurred_at]. *)
Theorem fallback_fixed_up_to_clock (utcnow1 utcnow2 : Clock) (db1 db2 : Store) :
  (store_has_nothing db1 "update" → store_has_nothing db2 "update" →
     list_updates db1 = Ok fallback_updates ∧ list_updates db2 = Ok fallback_updates)
  ∧ (store_has_nothing db1 "teammember" → store_has_nothing db2 "teammember" →
       list_team db1 = Ok fallback_team ∧ list_team db2 = Ok fallback_team)
  ∧ (store_has_nothing db1 "activity" → store_has_nothing db2 "activity" →
       ∃ r1 r2,
         list_activities utcnow1 db1 = Ok r1 ∧ list_activities utcnow2 db2 = Ok r2
         ∧ without_time <$> r1 = without_time <$> r2
         ∧ Activity.occurred_at <$> r1
           = [Some (utcnow1 0%nat); Some (utcnow1 1%nat); Some (utcnow1 2%nat)]
         ∧ Activity.occurred_at <$> r2
           = [Some (utcnow2 0%nat); Some (utcnow2 1%nat); Some (utcnow2 2%nat)]).
Proof.
  split_and!.
  - intros H1 H2. by rewrite !list_updates_nothing.
  - intros H1 H2. by rewrite !list_team_nothing.
  - intros H1 H2. exists (fallback_activities utcnow1), (fallback_activities utcnow2).
    by rewrite !list_activities_nothing.
Qed.
(** ** Validated entities conform to their schema *)

Lemma ge0_float_Ok (f : value → result float) (v : value) (x : float) :
  ge0_float f v = Ok x → (0 <=? x)%float = true.
Proof.
  unfold ge0_float. intros H. apply bind_Ok in H as (y & _ & H).
  destruct (0 <=? y)%float eqn:Hy; [|done]. by injection H as <-.
Qed.

Lemma ge0_int_Ok (f : value → result Z) (v : value) (z : Z) :
  ge0_int f v = Ok z → (0 <=? z)%Z = true.
Proof.
  unfold ge0_int. intros H. apply bind_Ok in H as (y & _ & H).
  destruct (0 <=? y)%Z eqn:Hy; [|done]. by injection H as <-.
Qed.

Lemma optional_Some {A} (f : value → result A) (v : value) (a : A) :
  optional f v = Ok (Some a) → f v = Ok a.
Proof.
  unfold optional. destruct v; try done;
    intros H; apply bind_Ok in H as (y & Hy & [= <-]); done.
Qed.

(** Exactly the declared fields; then field by field. *)
Ltac dom_of_dump :=
  cbv [model_dump Policy_model DocumentItem_model Invoice_model Renewal_model
       Activity_model Update_model TeamMember_model
       Policy.model_dump DocumentItem.model_dump Invoice.model_dump Renewal.model_dump
       Activity.model_dump Update.model_dump TeamMember.model_dump];
  rewrite !dom_insert_L, dom_singleton_L; simpl;
  rewrite union_empty_r_L; reflexivity.

Ltac conforms_by_fields schema :=
  split;
  [ dom_of_dump
  | let k := fresh "k" in
    let ty := fresh "ty" in
    let Hk := fresh "Hk" in
    intros k ty Hk; unfold schema in Hk;
    repeat (apply elem_of_cons in Hk as [[= -> ->]|Hk]);
    [..|by apply elem_of_nil in Hk];
    (eexists; split; [reflexivity|]); simpl; try done ].

Lemma Policy_validate_conforms (d : doc) (p : Policy.t) :
  Policy.validate d = Ok p → conforms Policy.schema (model_dump p).
Proof.
  unfold Policy.validate. intros H. bind_inv H. injection H as <-.
  conforms_by_fields Policy.schema.
  - by destruct x1.
  - unfold required in Hx4. destruct (d !! "premium"); [|done].
    by apply ge0_float_Ok in Hx4.
Qed.

Lemma DocumentItem_validate_conforms (d : doc) (e : DocumentItem.t) :
  DocumentItem.validate d = Ok e → conforms DocumentItem.schema (model_dump e).
Proof.
  unfold DocumentItem.validate. intros H. bind_inv H. injection H as <-.
  conforms_by_fields DocumentItem.schema.
  - by destruct x0.
  - destruct x1 as [z|]; [|done]. simpl.
    unfold defaulted in Hx1. destruct (d !! "size_bytes"); [|done].
    apply optional_Some in Hx1. by apply ge0_int_Ok in Hx1.
  - by destruct x2.
  - by destruct x3.
Qed.

Lemma Invoice_validate_conforms (d : doc) (e : Invoice.t) :
  Invoice.validate d = Ok e → conforms Invoice.schema (model_dump e).
Proof.
  unfold Invoice.validate. intros H. bind_inv H. injection H as <-.
  conforms_by_fields Invoice.schema.
  - unfold required in Hx0. destruct (d !! "amount"); [|done].
    by apply ge0_float_Ok in Hx0.
  - by destruct x2.
  - by destruct x3.
Qed.

Lemma Renewal_validate_conforms (d : doc) (e : Renewal.t) :
  Renewal.validate d = Ok e → conforms Renewal.schema (model_dump e).
Proof.
  unfold Renewal.validate. intros H. bind_inv H. injection H as <-.
  conforms_by_fields Renewal.schema.
  by destruct x2.
Qed.

Lemma Activity_validate_conforms (d : doc) (e : Activity.t) :
  Activity.validate d = Ok e → conforms Activity.schema (model_dump e).
Proof.
  unfold Activity.validate. intros H. bind_inv H. injection H as <-.
  conforms_by_fields Activity.schema.
  - by destruct x1.
  - by destruct x2.
Qed.

Lemma Update_validate_conforms (d : doc) (e : Update.t) :
  Update.validate d = Ok e → conforms Update.schema (model_dump e).
Proof.
  unfold Update.validate. intros H. bind_inv H. injection H as <-.
  conforms_by_fields Update.schema.
  - by destruct x0.
  - by destruct x1.
Qed.

Lemma TeamMember_validate_conforms (d : doc) (e : TeamMember.t) :
  TeamMember.validate d = Ok e → conforms TeamMember.schema (model_dump e).
Proof.
  unfold TeamMember.validate. intros H. bind_inv H. injection H as <-.
  conforms_by_fields TeamMember.schema.
  by destruct x3.
Qed.

(** ** What the handlers do to a stored record *)


Lemma lookup_date_if_datetime_ne (k k' : string) (d : doc) :
  k ≠ k' → date_if_datetime k d !! k' = d !! k'.
Proof.
  intros Hne. unfold date_if_datetime. destruct (d !! k) as [[]|]; try done.
  by rewrite lookup_insert_ne.
Qed.

Lemma lookup_isoformat_if_datetime_ne (k k' : string) (d : doc) :
  k ≠ k' → isoformat_if_datetime k d !! k' = d !! k'.
Proof.
  intros Hne. unfold isoformat_if_datetime. destruct (d !! k) as [[]|]; try done.
  by rewrite lookup_insert_ne.
Qed.

Lemma policy_kwargs_no_id (d : doc) : policy_kwargs d !! "_id" = None.
Proof.
  unfold policy_kwargs. simpl.
  rewrite !lookup_date_if_datetime_ne by done. apply lookup_delete_eq.
Qed.

Lemma document_kwargs_no_id (d : doc) : document_kwargs d !! "_id" = None.
Proof. apply lookup_delete_eq. Qed.

Lemma invoice_kwargs_no_id (d : doc) : invoice_kwargs d !! "_id" = None.
Proof.
  unfold invoice_kwargs. rewrite lookup_date_if_datetime_ne by done.
  apply lookup_delete_eq.
Qed.

Lemma renewal_kwargs_no_id (d : doc) : renewal_kwargs d !! "_id" = None.
Proof.
  unfold renewal_kwargs. rewrite lookup_date_if_datetime_ne by done.
  apply lookup_delete_eq.
Qed.

Lemma update_kwargs_no_id (d : doc) : update_kwargs d !! "_id" = None.
Proof. apply lookup_delete_eq. Qed.

Lemma team_kwargs_no_id (d : doc) : team_kwargs d !! "_id" = None.
Proof. apply lookup_delete_eq. Qed.

Lemma activity_kwargs_no_id (d : doc) : activity_kwargs d !! "_id" = None.
Proof.
  unfold activity_kwargs. rewrite lookup_isoformat_if_datetime_ne by done.
  apply lookup_delete_eq.
Qed.

Ltac no_id_field :=
  simpl; repeat (apply not_elem_of_cons; split; [done|]); apply not_elem_of_nil.

Lemma conforms_no_id (schema : list (string * ftype)) (d : doc) :
  "_id" ∉ schema.*1 → conforms schema d → d !! "_id" = None.
Proof.
  intros Hid [Hdom _]. apply not_elem_of_dom. rewrite Hdom.
  by rewrite elem_of_list_to_set.
Qed.

Lemma for_each_validated {E} `{BaseModel E} (validate : doc → result E)
    (schema : list (string * ftype)) (l : list doc) (r : list E) :
  (∀ d e, validate d = Ok e → conforms schema (model_dump e)) →
  for_each validate l = Ok r →
  Forall (λ e, conforms schema (model_dump e)) r.
Proof.
  intros Hvalidate Hr. apply for_each_Forall2 in Hr.
  induction Hr as [|d e l r Hd _ IH]; constructor; eauto.
Qed.

Lemma conforming_list {E} `{BaseModel E} (handler : Store → result (list E))
    (collection_name : string) (kwargs : doc → doc) (validate : doc → result E)
    (schema : list (string * ftype)) (defaults : list E) :
  defaults_exactly_when_nothing handler collection_name kwargs validate defaults →
  (∀ d e, validate d = Ok e → conforms schema (model_dump e)) →
  Forall (λ e, conforms schema (model_dump e)) defaults →
  "_id" ∉ schema.*1 →
  (∀ d, kwargs d !! "_id" = None) →
  returns_conforming handler collection_name kwargs validate schema.
Proof.
  intros Hspec Hvalidate Hdefaults Hid Hkwargs db r Hr.
  destruct (Hspec db) as [Hnothing Hstored].
  assert (Forall (λ e, conforms schema (model_dump e)) r) as Hconf.
  { rewrite store_has_nothing_docs_of in Hnothing, Hstored.
    destruct (docs_of db collection_name) as [|x l] eqn:Hdocs.
    - rewrite (Hnothing eq_refl) in Hr. by injection Hr as <-.
    - destruct (Hstored ltac:(done)) as [Hrun _]. rewrite Hrun in Hr.
      by eapply for_each_validated. }
  split.
  - eapply Forall_impl; [exact Hconf|]. intros e He. split; [done|].
    by eapply conforms_no_id.
  - intros Hne. destruct (Hstored Hne) as [Hrun _]. rewrite Hrun in Hr.
    apply for_each_Forall2 in Hr. apply Forall2_fmap_l in Hr.
    eapply Forall2_impl; [exact Hr|]. intros d e Hd. by split.
Qed.

(** C7.  Every record that a list handler returns has exactly the declared
    fields of its entity schema, each holding a value of the declared type,
    and no [_id]; every entity made from a stored record was built after the
    [_id] had been removed from that record. *)
Theorem list_handlers_return_conforming_records (utcnow : Clock) :
  returns_conforming list_policies "policy" policy_kwargs Policy.validate Policy.schema
  ∧ returns_conforming list_documents "documentitem" document_kwargs DocumentItem.validate
      DocumentItem.schema
  ∧ returns_conforming list_invoices "invoice" invoice_kwargs Invoice.validate Invoice.schema
  ∧ returns_conforming list_renewals "renewal" renewal_kwargs Renewal.validate Renewal.schema
  ∧ returns_conforming list_updates "update" update_kwargs Update.validate Update.schema
  ∧ returns_conforming list_team "teammember" team_kwargs TeamMember.validate
      TeamMember.schema
  ∧ returns_conforming (list_activities utcnow) "activity" activity_kwargs Activity.validate
      Activity.schema.
Proof.
  split_and!.
  - apply (conforming_list _ _ _ _ _ _ list_policies_spec);
      [apply Policy_validate_conforms|done|no_id_field|apply policy_kwargs_no_id].
  - apply (conforming_list _ _ _ _ _ _ list_documents_spec);
      [apply DocumentItem_validate_conforms|done|no_id_field|apply document_kwargs_no_id].
  - apply (conforming_list _ _ _ _ _ _ list_invoices_spec);
      [apply Invoice_validate_conforms|done|no_id_field|apply invoice_kwargs_no_id].
  - apply (conforming_list _ _ _ _ _ _ list_renewals_spec);
      [apply Renewal_validate_conforms|done|no_id_field|apply renewal_kwargs_no_id].
  - apply (conforming_list _ _ _ _ _ _ list_updates_spec);
      [apply Update_validate_conforms| |no_id_field|apply update_kwargs_no_id].
    eapply for_each_validated;
      [apply Update_validate_conforms|apply updates_fallback_validates].
  - apply (conforming_list _ _ _ _ _ _ list_team_spec);
      [apply TeamMember_validate_conforms| |no_id_field|apply team_kwargs_no_id].
    eapply for_each_validated;
      [apply TeamMember_validate_conforms|apply team_fallback_validates].
  - apply (conforming_list _ _ _ _ _ _ (list_activities_spec utcnow));
      [apply Activity_validate_conforms| |no_id_field|apply activity_kwargs_no_id].
    eapply for_each_validated;
      [apply Activity_validate_conforms|apply activities_fallback_validates].
Qed.

(** ** Date coercion *)






(** Without the coercion a stored datetime that is not at midnight would be
    rejected by a date field. *)
Lemma date_field_needs_midnight (t : datetime) :
  zero_time t = false → date_field (VDatetime t) = Raise ValidationError.
Proof. intros Ht. simpl. by rewrite Ht. Qed.


(** ** Seeding *)

Lemma get_documents_create_eq {E} `{BaseModel E} (collection_name : string) (e : E)
    (d : Database) :
  get_documents (create_document collection_name e d) collection_name
  = (get_documents d collection_name
     ++ [<["_id" := VObjectId (next_id d)]> (model_dump e)])%list.
Proof. unfold get_documents at 1, create_document. simpl. by rewrite lookup_insert_eq. Qed.

Lemma get_documents_create_ne {E} `{BaseModel E} (target collection_name : string) (e : E)
    (d : Database) :
  collection_name ≠ target →
  get_documents (create_document target e d) collection_name
  = get_documents d collection_name.
Proof.
  intros Hne. unfold get_documents, create_document. simpl.
  by rewrite lookup_insert_ne.
Qed.

Lemma find_all (d : Database) (collection_name : string) :
  find d collection_name [] = get_documents d collection_name.
Proof.
  unfold find. induction (get_documents d collection_name) as [|x l IH]; [done|].
  simpl. by rewrite IH.
Qed.

Lemma count_zero_iff_empty (d : Database) (collection_name : string) :
  (count_documents d collection_name [] =? 0)%Z = true
  ↔ get_documents d collection_name = [].
Proof.
  unfold count_documents. rewrite find_all, Z.eqb_eq.
  destruct (get_documents d collection_name); simpl; split; intros; (done || lia).
Qed.

Lemma writes_only_create {E} `{BaseModel E} (target : string) (data : result E) :
  writes_only target (create target data).
Proof.
  intros d name Hne. unfold create. destruct data as [e|]; [|done].
  simpl. by apply get_documents_create_ne.
Qed.

Lemma writes_only_bind {A B} (target : string) (m : script A) (k : A → script B) :
  writes_only target m → (∀ a, writes_only target (k a)) →
  writes_only target (m ≫= k).
Proof.
  intros Hm Hk d name Hne. unfold mbind, script_bind.
  specialize (Hm d name Hne). destruct (m d) as [[a|e] d1]; simpl in *; [|done].
  by rewrite Hk.
Qed.

Lemma keeps_non_empty_bind {A B} (m : script A) (k : A → script B) :
  keeps_non_empty m → (∀ a, keeps_non_empty (k a)) → keeps_non_empty (m ≫= k).
Proof.
  intros Hm Hk d name Hne. unfold mbind, script_bind.
  specialize (Hm d name Hne). destruct (m d) as [[a|e] d1]; simpl in *; [|done].
  rewrite Hk; [done|]. by rewrite Hm.
Qed.

(** A guarded block, [if db[c].count_documents({}) == 0: ...], whose body
    writes to [c] only. *)
Lemma keeps_non_empty_guarded (target : string) (body : script unit) :
  writes_only target body →
  keeps_non_empty (empty ← is_empty_collection target ; when empty body).
Proof.
  intros Hbody d name Hne. unfold mbind, script_bind, is_empty_collection. simpl.
  destruct (count_documents d target [] =? 0)%Z eqn:Hcount; simpl; [|done].
  apply count_zero_iff_empty in Hcount. apply Hbody. by intros ->.
Qed.

Lemma seed_body_keeps_non_empty (utcnow : Clock) : keeps_non_empty (seed_body utcnow).
Proof.
  unfold seed_body.
  repeat (apply keeps_non_empty_bind; [|intros _]);
    apply keeps_non_empty_guarded;
    repeat (apply writes_only_bind; [|intros _]); apply writes_only_create.
Qed.

(** C9.  The seed step does nothing without a store, and with a store it
    leaves every collection unchanged that holds at least one document when
    the process starts: a collection whose contents differ afterwards held
    zero documents before. *)
Theorem seed_only_fills_empty_collections (utcnow : Clock) :
  seed_demo utcnow None = None
  ∧ ∀ d : Database, ∃ d' : Database,
      seed_demo utcnow (Some d) = Some d'
      ∧ (∀ collection_name,
           get_documents d collection_name ≠ [] →
           get_documents d' collection_name = get_documents d collection_name)
      ∧ (∀ collection_name,
           get_documents d' collection_name ≠ get_documents d collection_name →
           count_documents d collection_name [] = 0%Z).
Proof.
  split; [done|]. intros d. eexists. split; [reflexivity|]. split.
  - intros name Hne. by apply seed_body_keeps_non_empty.
  - intros name Hchanged.
    destruct (get_documents d name) as [|x l] eqn:Hdocs.
    + apply Z.eqb_eq. by apply count_zero_iff_empty.
    + exfalso. apply Hchanged. rewrite <- Hdocs.
      apply seed_body_keeps_non_empty. by rewrite Hdocs.
Qed.

(** ** Upload *)

Lemma for_each_app {A B} (f : A → result B) (l1 l2 : list A) :
  for_each f (l1 ++ l2)
  = (r1 ← for_each f l1 ; r2 ← for_each f l2 ; Ok (r1 ++ r2)%list).
Proof.
  induction l1 as [|x l1 IH]; simpl.
  - by destruct (for_each f l2).
  - destruct (f x) as [y|]; simpl; [|done]. rewrite IH.
    destruct (for_each f l1) as [r1|]; simpl; [|done].
    by destruct (for_each f l2).
Qed.

Lemma upload_kwargs_validate (file_filename : string)
    (file_content_type policy_number : option string) :
  DocumentItem.validate
    {[ "filename" := VStr file_filename;
       "content_type" := dump_optional VStr file_content_type;
       "size_bytes" := VNone;
       "category" := VStr "Uploaded";
       "policy_number" := dump_optional VStr policy_number ]}
  = Ok (uploaded_item file_filename file_content_type policy_number).
Proof. by destruct file_content_type, policy_number. Qed.

Lemma uploaded_item_read_back (file_filename : string)
    (file_content_type policy_number : option string) (id : N) :
  DocumentItem.validate
    (document_kwargs
       (<["_id" := VObjectId id]>
          (model_dump (uploaded_item file_filename file_content_type policy_number))))
  = Ok (uploaded_item file_filename file_content_type policy_number).
Proof.
  unfold document_kwargs. rewrite delete_insert_eq, delete_id; [|done].
  by destruct file_content_type, policy_number.
Qed.

(** C8, as the handlers have it.  With an available store whose stored
    document records are valid, an upload answers [ok] and a subsequent
    [GET /api/documents] returns the documents listed before followed by the
    uploaded one: the given file name, category "Uploaded". *)
Theorem uploaded_document_is_listed (utcnow : Clock) (d : Database)
    (file_filename : string) (file_content_type policy_number : option string)
    (before : list DocumentItem.t) :
  list_documents (Some d) = Ok before →
  ∃ d',
    app_call utcnow (Some d)
      (POST_documents_upload file_filename file_content_type policy_number)
    = (Ok (Json {[ "status" := VStr "ok"; "filename" := VStr file_filename ]}), Some d')
    ∧ app_call utcnow (Some d') GET_documents
      = (Ok (Documents
               (before ++ [uploaded_item file_filename file_content_type policy_number])),
         Some d')
    ∧ DocumentItem.filename (uploaded_item file_filename file_content_type policy_number)
      = file_filename
    ∧ DocumentItem.category (uploaded_item file_filename file_content_type policy_number)
      = Some "Uploaded".
Proof.
  intros Hbefore.
  exists (create_document "documentitem"
            (uploaded_item file_filename file_content_type policy_number) d).
  split_and!; [| |done..].
  - unfold app_call, upload_document. by rewrite upload_kwargs_validate.
  - unfold app_call. f_equal.
    unfold list_documents in *. simpl in *.
    rewrite get_documents_create_eq, for_each_app, Hbefore. simpl.
    by rewrite uploaded_item_read_back.
Qed.
End properties.

(** ** Concrete runs *)

(** C4 at an unavailable store and an available store without collections. *)
Lemma fallback_fixed_up_to_clock_witness :
  list_updates (pydantic := reference_pydantic) None
  = list_updates (pydantic := reference_pydantic) (Some empty_database)
  ∧ list_team (pydantic := reference_pydantic) None
    = list_team (pydantic := reference_pydantic) (Some empty_database)
  ∧ without_time <$> fallback_activities (frozen_clock (datetime_ymd 2025 1 1))
    = without_time <$> fallback_activities (frozen_clock (datetime_ymd 2025 1 2)).
Proof.
  pose proof (fallback_fixed_up_to_clock (pydantic := reference_pydantic)
                (frozen_clock (datetime_ymd 2025 1 1)) (frozen_clock (datetime_ymd 2025 1 2))
                None (Some empty_database)) as (Hupdates & Hteam & Hactivities).
  assert (∀ name, store_has_nothing None name) as Hnone by (by left).
  assert (∀ name, store_has_nothing (Some empty_database) name) as Hempty.
  { intros name. right. by exists empty_database. }
  destruct (Hupdates (Hnone _) (Hempty _)) as [-> ->].
  destruct (Hteam (Hnone _) (Hempty _)) as [-> ->].
  repeat split.
Defined.

(** C4 as stated fails for activities: two calls against the unavailable
    store, one on 2025-01-01 and one on 2025-01-02, return different
    records. *)
Lemma activities_fallback_differs_between_calls :
  store_has_nothing None "activity"
  ∧ list_activities (pydantic := reference_pydantic)
      (frozen_clock (datetime_ymd 2025 1 1)) None
    ≠ list_activities (pydantic := reference_pydantic)
        (frozen_clock (datetime_ymd 2025 1 2)) None.
Proof.
  split; [by left|]. vm_compute. discriminate.
Qed.


(** C8 on an available store without documents. *)
Lemma uploaded_document_is_listed_witness :
  list_documents (pydantic := reference_pydantic) (Some empty_database) = Ok []
  ∧ ∃ d',
      app_call (pydantic := reference_pydantic) (frozen_clock new_year_morning)
        (Some empty_database)
        (POST_documents_upload "evidence.pdf" (Some "application/pdf") None)
      = (Ok (Json {[ "status" := VStr "ok"; "filename" := VStr "evidence.pdf" ]}), Some d')
      ∧ app_call (pydantic := reference_pydantic) (frozen_clock new_year_morning)
          (Some d') GET_documents
        = (Ok (Documents [uploaded_item "evidence.pdf" (Some "application/pdf") None]),
           Some d').
Proof.
  split; [reflexivity|].
  destruct (uploaded_document_is_listed (pydantic := reference_pydantic)
              (frozen_clock new_year_morning) empty_database
              "evidence.pdf" (Some "application/pdf") None [] eq_refl)
    as (d' & Hupload & Hlist & _).
  exists d'. split; [exact Hupload|exact Hlist].
Defined.

(** C8 as stated fails without a store: the upload answers [ok], nothing is
    written, and the subsequent [GET /api/documents] returns the empty
    sequence. *)
Lemma upload_without_store_is_not_listed :
  app_call (pydantic := reference_pydantic) (frozen_clock new_year_morning) None
    (POST_documents_upload "evidence.pdf" (Some "application/pdf") None)
  = (Ok (Json {[ "status" := VStr "ok"; "filename" := VStr "evidence.pdf" ]}), None)
  ∧ app_call (pydantic := reference_pydantic) (frozen_clock new_year_morning) None
      GET_documents
    = (Ok (Documents []), None).
Proof. split; reflexivity. Qed.

(** C9 on a store that holds one invoice and nothing else: the invoice
    collection is left alone. *)
Lemma seed_only_fills_empty_collections_witness :
  get_documents small_invoice_database "invoice" ≠ []
  ∧ ∃ d',
      seed_demo (pydantic := reference_pydantic) (frozen_clock new_year_morning)
        (Some small_invoice_database) = Some d'
      ∧ get_documents d' "invoice" = get_documents small_invoice_database "invoice".
Proof.
  assert (get_documents small_invoice_database "invoice" ≠ []) as Hne by done.
  split; [exact Hne|].
  destruct (proj2 (seed_only_fills_empty_collections (pydantic := reference_pydantic)
                     (frozen_clock new_year_morning)) small_invoice_database)
    as (d' & Hseed & Hkeep & _).
  exists d'. split; [exact Hseed|]. by apply Hkeep.
Defined.

(** The same run fills the collections that were empty. *)
Example seed_fills_the_empty_collections :
  (λ name, length (docs_of (seed_demo (pydantic := reference_pydantic)
                              (frozen_clock new_year_morning)
                              (Some small_invoice_database)) name))
  <$> ["policy"; "invoice"; "renewal"; "update"; "teammember"; "activity"; "documentitem"]
  = [3; 1; 1; 1; 2; 3; 0]%nat.
Proof. vm_compute. reflexivity. Qed.



(** C7 on a store that holds one policy with an [_id]. *)
Lemma list_handlers_return_conforming_witness :
  policy_starting new_year_morning !! "_id" = Some (VObjectId 0)
  ∧ Forall (λ e, conforms Policy.schema (model_dump e) ∧ model_dump e !! "_id" = None)
      [ Policy.Make "CP-12345" "Commercial Property" Policy.active
          (Date 2024 1 1) (Date 2024 12 31) 12000 "Acme Corp" ].
Proof.
  split; [reflexivity|].
  destruct (list_handlers_return_conforming_records (pydantic := reference_pydantic)
              (frozen_clock new_year_morning)) as (Hpolicies & _).
  apply (Hpolicies (Some (policy_database new_year_morning))). reflexivity.
Defined.

(** * Further properties of the schemas and handlers *)

Section further_properties.
Context {pydantic : Pydantic} {arith : DatetimeArith}.

(** ** Dumping and validating again *)

Lemma Policy_dump_validates (p : Policy.t) :
  (0 <=? Policy.premium p)%float = true → Policy.validate (model_dump p) = Ok p.
Proof.
  destruct p as [number product status start stop premium entity]. simpl. intros Hge.
  unfold Policy.validate, required, defaulted, ge0_float.
  change (model_dump ?x) with (Policy.model_dump x).
  vm_compute (_ !! _). cbn. rewrite Hge. by destruct status.
Qed.

Lemma DocumentItem_dump_validates (x : DocumentItem.t) :
  (∀ z, DocumentItem.size_bytes x = Some z → (0 <=? z)%Z = true) →
  DocumentItem.validate (model_dump x) = Ok x.
Proof.
  destruct x as [name ctype size category number]. simpl. intros Hge.
  unfold DocumentItem.validate, required, defaulted, ge0_int.
  change (model_dump ?x) with (DocumentItem.model_dump x).
  vm_compute (_ !! _).
  destruct ctype, size as [z|], category, number; cbn; rewrite ?(Hge z eq_refl); done.
Qed.

Lemma Invoice_dump_validates (x : Invoice.t) :
  (0 <=? Invoice.amount x)%float = true → Invoice.validate (model_dump x) = Ok x.
Proof.
  destruct x as [number amount due status policy]. simpl. intros Hge.
  unfold Invoice.validate, required, defaulted, ge0_float.
  change (model_dump ?x) with (Invoice.model_dump x).
  vm_compute (_ !! _). cbn. rewrite Hge. by destruct status, policy.
Qed.

Lemma Renewal_dump_validates (x : Renewal.t) : Renewal.validate (model_dump x) = Ok x.
Proof. by destruct x as [number product date []]. Qed.

Lemma Activity_dump_validates (x : Activity.t) : Activity.validate (model_dump x) = Ok x.
Proof. by destruct x as [ty message [] []]. Qed.

Lemma Update_dump_validates (x : Update.t) : Update.validate (model_dump x) = Ok x.
Proof. by destruct x as [title [] [] date]. Qed.

Lemma Notification_dump_validates (x : Notification.t) :
  Notification.validate (Notification.model_dump x) = Ok x.
Proof. by destruct x as [title message []]. Qed.

Lemma TeamMember_dump_validates (x : TeamMember.t) :
  validate_email (TeamMember.email x) = Some (TeamMember.email x) →
  TeamMember.validate (model_dump x) = Ok x.
Proof.
  destruct x as [name role email phone linkedin]. simpl. intros Hemail.
  unfold TeamMember.validate, required, defaulted.
  change (model_dump ?x) with (TeamMember.model_dump x).
  vm_compute (_ !! _). cbn. rewrite Hemail. by destruct linkedin.
Qed.

(** X1.  Whatever a list handler returns can be dumped and validated again
    without change: validation has already applied every conversion,
    default and constraint of the schema.  For a team member this needs the
    normalised address to be accepted as it is. *)
Theorem validated_entity_survives_dump :
  (∀ d e, Policy.validate d = Ok e → Policy.validate (model_dump e) = Ok e)
  ∧ (∀ d e, DocumentItem.validate d = Ok e → DocumentItem.validate (model_dump e) = Ok e)
  ∧ (∀ d e, Invoice.validate d = Ok e → Invoice.validate (model_dump e) = Ok e)
  ∧ (∀ d e, Renewal.validate d = Ok e → Renewal.validate (model_dump e) = Ok e)
  ∧ (∀ d e, Activity.validate d = Ok e → Activity.validate (model_dump e) = Ok e)
  ∧ (∀ d e, Update.validate d = Ok e → Update.validate (model_dump e) = Ok e)
  ∧ (∀ d e, TeamMember.validate d = Ok e →
            validate_email (TeamMember.email e) = Some (TeamMember.email e) →
            TeamMember.validate (model_dump e) = Ok e).
Proof.
  split_and!.
  - intros d e He. apply Policy_dump_validates.
    unfold Policy.validate in He. bind_inv He. injection He as <-. simpl.
    unfold required in Hx4. destruct (d !! "premium"); [|done].
    by apply ge0_float_Ok in Hx4.
  - intros d e He. apply DocumentItem_dump_validates.
    unfold DocumentItem.validate in He. bind_inv He. injection He as <-. simpl.
    intros z ->. unfold defaulted in Hx1. destruct (d !! "size_bytes"); [|done].
    apply optional_Some in Hx1. by apply ge0_int_Ok in Hx1.
  - intros d e He. apply Invoice_dump_validates.
    unfold Invoice.validate in He. bind_inv He. injection He as <-. simpl.
    unfold required in Hx0. destruct (d !! "amount"); [|done].
    by apply ge0_float_Ok in Hx0.
  - intros d e _. apply Renewal_dump_validates.
  - intros d e _. apply Activity_dump_validates.
  - intros d e _. apply Update_dump_validates.
  - intros d e _. apply TeamMember_dump_validates.
Qed.

(** ** Failures of the list handlers *)

Lemma ove_Ok {A} (a : A) : only_validation_error (Ok a).
Proof. by intros e. Qed.

Lemma ove_Raise {A} : only_validation_error (@Raise A ValidationError).
Proof. by intros e [= <-]. Qed.

Lemma ove_of_option {A} (o : option A) : only_validation_error (of_option o).
Proof. destruct o; [apply ove_Ok|apply ove_Raise]. Qed.

Lemma ove_bind {A B} (r : result A) (k : A → result B) :
  only_validation_error r → (∀ a, only_validation_error (k a)) →
  only_validation_error (r ≫= k).
Proof.
  intros Hr Hk. destruct r as [a|e]; simpl; [apply Hk|].
  intros e' [= <-]. by apply Hr.
Qed.

Lemma ove_required {A} (d : doc) (k : string) (f : value → result A) :
  (∀ v, only_validation_error (f v)) → only_validation_error (required d k f).
Proof. intros Hf. unfold required. destruct (d !! k); [apply Hf|apply ove_Raise]. Qed.

Lemma ove_defaulted {A} (d : doc) (k : string) (dflt : A) (f : value → result A) :
  (∀ v, only_validation_error (f v)) → only_validation_error (defaulted d k dflt f).
Proof. intros Hf. unfold defaulted. destruct (d !! k); [apply Hf|apply ove_Ok]. Qed.

Lemma ove_str_field (v : value) : only_validation_error (str_field v).
Proof. destruct v; (apply ove_Ok || apply ove_Raise). Qed.

Lemma ove_email_field (v : value) : only_validation_error (email_field v).
Proof. destruct v; (apply ove_of_option || apply ove_Raise). Qed.

Lemma ove_int_field (v : value) : only_validation_error (int_field v).
Proof. destruct v; (apply ove_Ok || apply ove_of_option). Qed.

Lemma ove_float_field (v : value) : only_validation_error (float_field v).
Proof.
  destruct v; try (apply ove_Ok || apply ove_of_option).
  simpl. destruct (float_of_int z); [apply ove_Ok|apply ove_of_option].
Qed.

Lemma ove_date_field (v : value) : only_validation_error (date_field v).
Proof.
  destruct v; try (apply ove_Ok || apply ove_of_option).
  simpl. destruct (zero_time t); [apply ove_Ok|apply ove_Raise].
Qed.

Lemma ove_datetime_field (v : value) : only_validation_error (datetime_field v).
Proof. destruct v; (apply ove_Ok || apply ove_of_option). Qed.

Lemma ove_literal_field {A} (table : list (string * A)) (v : value) :
  only_validation_error (literal_field table v).
Proof. destruct v; (apply ove_of_option || apply ove_Raise). Qed.

Lemma ove_optional {A} (f : value → result A) (v : value) :
  (∀ v, only_validation_error (f v)) → only_validation_error (optional f v).
Proof.
  intros Hf. unfold optional.
  destruct v; try apply ove_Ok; (apply ove_bind; [apply Hf|intros ?; apply ove_Ok]).
Qed.

Lemma ove_ge0_int (f : value → result Z) (v : value) :
  (∀ v, only_validation_error (f v)) → only_validation_error (ge0_int f v).
Proof.
  intros Hf. apply ove_bind; [apply Hf|]. intros z.
  destruct (0 <=? z)%Z; [apply ove_Ok|apply ove_Raise].
Qed.

Lemma ove_ge0_float (f : value → result float) (v : value) :
  (∀ v, only_validation_error (f v)) → only_validation_error (ge0_float f v).
Proof.
  intros Hf. apply ove_bind; [apply Hf|]. intros x.
  destruct (0 <=? x)%float; [apply ove_Ok|apply ove_Raise].
Qed.

(** Goes through a constructor field by field. *)
Ltac ove_fields :=
  repeat first
    [ apply ove_Ok
    | apply ove_required; intros ?
    | apply ove_defaulted; intros ?
    | apply ove_optional; intros ?
    | apply ove_ge0_int; intros ?
    | apply ove_ge0_float; intros ?
    | apply ove_str_field
    | apply ove_email_field
    | apply ove_int_field
    | apply ove_float_field
    | apply ove_date_field
    | apply ove_datetime_field
    | apply ove_literal_field
    | apply ove_bind; [|intros ?] ].

Lemma ove_Policy (d : doc) : only_validation_error (Policy.validate d).
Proof. unfold Policy.validate. ove_fields. Qed.

Lemma ove_DocumentItem (d : doc) : only_validation_error (DocumentItem.validate d).
Proof. unfold DocumentItem.validate. ove_fields. Qed.

Lemma ove_Invoice (d : doc) : only_validation_error (Invoice.validate d).
Proof. unfold Invoice.validate. ove_fields. Qed.

Lemma ove_Renewal (d : doc) : only_validation_error (Renewal.validate d).
Proof. unfold Renewal.validate. ove_fields. Qed.

Lemma ove_Activity (d : doc) : only_validation_error (Activity.validate d).
Proof. unfold Activity.validate. ove_fields. Qed.

Lemma ove_Update (d : doc) : only_validation_error (Update.validate d).
Proof. unfold Update.validate. ove_fields. Qed.

Lemma ove_TeamMember (d : doc) : only_validation_error (TeamMember.validate d).
Proof. unfold TeamMember.validate. ove_fields. Qed.

Lemma ove_for_each {A B} (f : A → result B) (l : list A) :
  (∀ x, only_validation_error (f x)) → only_validation_error (for_each f l).
Proof.
  intros Hf. induction l as [|x l IH]; simpl; [apply ove_Ok|].
  apply ove_bind; [apply Hf|]. intros y.
  apply ove_bind; [apply IH|]. intros ys. apply ove_Ok.
Qed.

Lemma for_each_fails_iff {A B} (f : A → result B) (l : list A) :
  is_ok (for_each f l) = false ↔ Exists (λ x, is_ok (f x) = false) l.
Proof.
  induction l as [|x l IH]; simpl.
  - split; [done|]. by inversion 1.
  - rewrite Exists_cons, <- IH. destruct (f x) as [y|]; simpl.
    + destruct (for_each f l); simpl; intuition congruence.
    + intuition congruence.
Qed.

Lemma failing_list {E} (handler : Store → result (list E)) (collection_name : string)
    (kwargs : doc → doc) (validate : doc → result E) (defaults : list E) :
  defaults_exactly_when_nothing handler collection_name kwargs validate defaults →
  (∀ d, only_validation_error (validate d)) →
  fails_exactly_on_bad_record handler collection_name kwargs validate.
Proof.
  intros Hspec Hvalidate db. destruct (Hspec db) as [Hnothing Hstored].
  rewrite store_has_nothing_docs_of in Hnothing, Hstored.
  destruct (docs_of db collection_name) as [|x l] eqn:Hdocs.
  - rewrite (Hnothing eq_refl). split; [apply ove_Ok|].
    split; [done|]. by inversion 1.
  - destruct (Hstored ltac:(done)) as [-> _]. split.
    + by apply ove_for_each.
    + rewrite for_each_fails_iff. apply Exists_fmap.
Qed.

(** X2.  No list handler skips a bad record: each one fails, with a validation
    error, exactly when some stored record of its collection fails
    validation after stripping and coercion; it never fails on a store that
    has nothing for the collection. *)
Theorem list_handlers_fail_exactly_on_bad_record (utcnow : Clock) :
  fails_exactly_on_bad_record list_policies "policy" policy_kwargs Policy.validate
  ∧ fails_exactly_on_bad_record list_documents "documentitem" document_kwargs
      DocumentItem.validate
  ∧ fails_exactly_on_bad_record list_invoices "invoice" invoice_kwargs Invoice.validate
  ∧ fails_exactly_on_bad_record list_renewals "renewal" renewal_kwargs Renewal.validate
  ∧ fails_exactly_on_bad_record list_updates "update" update_kwargs Update.validate
  ∧ fails_exactly_on_bad_record list_team "teammember" team_kwargs TeamMember.validate
  ∧ fails_exactly_on_bad_record (list_activities utcnow) "activity" activity_kwargs
      Activity.validate.
Proof.
  split_and!.
  - apply (failing_list _ _ _ _ _ list_policies_spec ove_Policy).
  - apply (failing_list _ _ _ _ _ list_documents_spec ove_DocumentItem).
  - apply (failing_list _ _ _ _ _ list_invoices_spec ove_Invoice).
  - apply (failing_list _ _ _ _ _ list_renewals_spec ove_Renewal).
  - apply (failing_list _ _ _ _ _ list_updates_spec ove_Update).
  - apply (failing_list _ _ _ _ _ list_team_spec ove_TeamMember).
  - apply (failing_list _ _ _ _ _ (list_activities_spec utcnow) ove_Activity).
Qed.

(** ** Listing and counting by status *)

Lemma policy_kwargs_status (d : doc) : policy_kwargs d !! "status" = d !! "status".
Proof.
  unfold policy_kwargs. simpl. rewrite !lookup_date_if_datetime_ne by done.
  by rewrite lookup_delete_ne.
Qed.

Lemma renewal_kwargs_status (d : doc) : renewal_kwargs d !! "status" = d !! "status".
Proof.
  unfold renewal_kwargs. rewrite lookup_date_if_datetime_ne by done.
  by rewrite lookup_delete_ne.
Qed.

Lemma literal_field_in {A} (table : list (string * A)) (v : value) (a : A) :
  literal_field table v = Ok a → ∃ s, v = VStr s ∧ (s, a) ∈ table.
Proof.
  destruct v as [|s| | | | |]; try done. simpl. intros Hf. exists s. split; [done|].
  induction table as [|[s' a'] table IH]; [done|]. simpl in Hf.
  destruct (String.eqb s' s) eqn:Heq.
  - apply String.eqb_eq in Heq as ->. injection Hf as ->. left.
  - right. by apply IH.
Qed.

Lemma listed_active_iff (d : doc) (p : Policy.t) :
  Policy.validate (policy_kwargs d) = Ok p →
  listed_active p = matches [("status", "active")] d || lacks "status" d.
Proof.
  unfold Policy.validate. intros H. bind_inv H. injection H as <-.
  unfold listed_active, lacks, matches, defaulted in *. simpl.
  rewrite policy_kwargs_status in Hx1.
  destruct (d !! "status") as [v|]; [|by simplify_eq].
  apply literal_field_in in Hx1 as (s & -> & Hin).
  repeat (apply elem_of_cons in Hin as [[= -> ->]|Hin]); [done..|].
  by apply elem_of_nil in Hin.
Qed.

Lemma listed_due_iff (d : doc) (r : Renewal.t) :
  Renewal.validate (renewal_kwargs d) = Ok r →
  listed_due r = matches [("status", "due")] d || lacks "status" d.
Proof.
  unfold Renewal.validate. intros H. bind_inv H. injection H as <-.
  unfold listed_due, lacks, matches, defaulted in *. simpl.
  rewrite renewal_kwargs_status in Hx2.
  destruct (d !! "status") as [v|]; [|by simplify_eq].
  apply literal_field_in in Hx2 as (s & -> & Hin).
  repeat (apply elem_of_cons in Hin as [[= -> ->]|Hin]); [done..|].
  by apply elem_of_nil in Hin.
Qed.

Lemma count_listed {E} (validate : doc → result E) (kwargs : doc → doc)
    (listed : E → bool) (filter : list (string * string)) (k : string)
    (docs : list doc) (r : list E) :
  (∀ d e, validate (kwargs d) = Ok e → listed e = matches filter d || lacks k d) →
  (∀ d, matches filter d = true → lacks k d = false) →
  for_each validate (kwargs <$> docs) = Ok r →
  length (List.filter listed r)
  = (length (List.filter (matches filter) docs) + length (List.filter (lacks k) docs))%nat.
Proof.
  intros Hlisted Hexcl Hr. rewrite for_each_fmap in Hr. apply for_each_Forall2 in Hr.
  induction Hr as [|d e docs r Hd _ IH]; [done|].
  cbn [List.filter]. rewrite (Hlisted _ _ Hd).
  destruct (matches filter d) eqn:Hm.
  - rewrite (Hexcl _ Hm). simpl. by rewrite IH.
  - destruct (lacks k d); simpl; rewrite IH; lia.
Qed.

Lemma matches_has_key (k s : string) (d : doc) :
  matches [(k, s)] d = true → lacks k d = false.
Proof. unfold matches, lacks. simpl. by destruct (d !! k). Qed.

(** X3.  The dashboard counts the stored records whose [status] is written out,
    the listings apply the schema default to records without one.  So the
    policies listed as active are the counted ones plus the stored policies
    without a status, and likewise for the renewals listed as due. *)
Theorem dashboard_misses_defaulted_status (d : Database) (c : DashboardCounts.t) :
  get_dashboard_counts (Some d) = Ok c →
  (∀ ps, list_policies (Some d) = Ok ps →
     Z.of_nat (length (List.filter listed_active ps))
     = (DashboardCounts.active_policies c
        + Z.of_nat (length (List.filter (lacks "status") (get_documents d "policy"))))%Z)
  ∧ (∀ rs, list_renewals (Some d) = Ok rs →
       Z.of_nat (length (List.filter listed_due rs))
       = (DashboardCounts.renewals_due c
          + Z.of_nat (length (List.filter (lacks "status") (get_documents d "renewal"))))%Z).
Proof.
  intros Hc. destruct (dashboard_with_store d c Hc) as (-> & -> & _).
  unfold count_documents, find. split.
  - intros ps Hps. unfold list_policies in Hps. simpl in Hps.
    rewrite <- (for_each_fmap Policy.validate policy_kwargs) in Hps.
    rewrite (count_listed _ _ _ _ "status" _ _ listed_active_iff
               (matches_has_key "status" "active") Hps).
    lia.
  - intros rs Hrs. unfold list_renewals in Hrs. simpl in Hrs.
    rewrite (count_listed _ _ _ _ "status" _ _ listed_due_iff
               (matches_has_key "status" "due") Hrs).
    lia.
Qed.

(** ** What the seed step writes *)

Lemma guarded_run (target : string) (body : script unit) (d : Database) :
  (empty ← is_empty_collection target ; when empty body) d
  = if (count_documents d target [] =? 0)%Z then body d else (Ok (), d).
Proof.
  unfold mbind, script_bind, is_empty_collection. simpl.
  by destruct (count_documents d target [] =? 0)%Z.
Qed.

Lemma seed_policies_run (d : Database) :
  seed_policies d = (Ok (), fill_if_empty "policy" seeded_policies d).
Proof.
  unfold seed_policies, fill_if_empty. rewrite guarded_run.
  by destruct (count_documents d "policy" [] =? 0)%Z.
Qed.

Lemma seed_invoices_run (d : Database) :
  seed_invoices d = (Ok (), fill_if_empty "invoice" seeded_invoices d).
Proof.
  unfold seed_invoices, fill_if_empty. rewrite guarded_run.
  by destruct (count_documents d "invoice" [] =? 0)%Z.
Qed.

Lemma seed_renewals_run (d : Database) :
  seed_renewals d = (Ok (), fill_if_empty "renewal" seeded_renewals d).
Proof.
  unfold seed_renewals, fill_if_empty. rewrite guarded_run.
  by destruct (count_documents d "renewal" [] =? 0)%Z.
Qed.

Lemma seed_updates_run (d : Database) :
  seed_updates d = (Ok (), fill_if_empty "update" fallback_updates d).
Proof.
  unfold seed_updates, fill_if_empty. rewrite guarded_run.
  by destruct (count_documents d "update" [] =? 0)%Z.
Qed.

Lemma seed_team_run (d : Database) :
  seed_team d = (Ok (), fill_if_empty "teammember" fallback_team d).
Proof.
  unfold seed_team, fill_if_empty. rewrite guarded_run.
  destruct (count_documents d "teammember" [] =? 0)%Z; [|done].
  unfold mbind, script_bind. rewrite !TeamMember_validate_kwargs.
  by rewrite validate_email_monique, validate_email_stuart.
Qed.

Lemma seed_body_run (utcnow : Clock) (d : Database) :
  seed_body utcnow d = seed_activities utcnow (seeded_before_activities d).
Proof.
  unfold seed_body, seeded_before_activities, mbind, script_bind.
  rewrite seed_policies_run, seed_invoices_run, seed_renewals_run.
  by rewrite seed_updates_run, seed_team_run.
Qed.

Lemma get_documents_insert_all {E} `{BaseModel E} (target : string) (es : list E)
    (d : Database) :
  get_documents (insert_all target es d) target
  = (get_documents d target ++ number_from (next_id d) es)%list.
Proof.
  unfold insert_all. revert d. induction es as [|e es IH]; intros d; simpl.
  - by rewrite app_nil_r.
  - rewrite IH, get_documents_create_eq. simpl. by rewrite <- app_assoc.
Qed.

Lemma get_documents_insert_all_ne {E} `{BaseModel E} (target name : string) (es : list E)
    (d : Database) :
  name ≠ target → get_documents (insert_all target es d) name = get_documents d name.
Proof.
  intros Hne. unfold insert_all. revert d. induction es as [|e es IH]; intros d; simpl.
  - done.
  - by rewrite IH, get_documents_create_ne.
Qed.

Lemma get_documents_fill_ne {E} `{BaseModel E} (target name : string) (es : list E)
    (d : Database) :
  name ≠ target → get_documents (fill_if_empty target es d) name = get_documents d name.
Proof.
  intros Hne. unfold fill_if_empty.
  destruct (count_documents d target [] =? 0)%Z; [|done].
  by apply get_documents_insert_all_ne.
Qed.

Lemma get_documents_fill_empty {E} `{BaseModel E} (target : string) (es : list E)
    (d : Database) :
  get_documents d target = [] →
  get_documents (fill_if_empty target es d) target = number_from (next_id d) es.
Proof.
  intros Hempty. unfold fill_if_empty.
  rewrite (proj2 (count_zero_iff_empty d target) Hempty).
  by rewrite get_documents_insert_all, Hempty.
Qed.

Lemma fill_non_empty {E} `{BaseModel E} (target : string) (es : list E) (d : Database) :
  get_documents d target ≠ [] → fill_if_empty target es d = d.
Proof.
  intros Hne. unfold fill_if_empty.
  destruct (count_documents d target [] =? 0)%Z eqn:Hcount; [|done].
  by apply count_zero_iff_empty in Hcount.
Qed.

Lemma fill_leaves_non_empty {E} `{BaseModel E} (target : string) (es : list E)
    (d : Database) :
  es ≠ [] → get_documents (fill_if_empty target es d) target ≠ [].
Proof.
  intros Hes. destruct (get_documents d target) as [|x l] eqn:Hdocs.
  - rewrite get_documents_fill_empty by done. by destruct es.
  - rewrite fill_non_empty; by rewrite Hdocs.
Qed.

Lemma writes_only_guarded (target : string) (body : script unit) :
  writes_only target body →
  writes_only target (empty ← is_empty_collection target ; when empty body).
Proof.
  intros Hbody d name Hne. rewrite guarded_run.
  destruct (count_documents d target [] =? 0)%Z; [by apply Hbody|done].
Qed.

Lemma seed_activities_writes_only (utcnow : Clock) :
  writes_only "activity" (seed_activities utcnow).
Proof.
  apply writes_only_guarded.
  repeat (apply writes_only_bind; [|intros _]); apply writes_only_create.
Qed.

Lemma create_never_empties {E} `{BaseModel E} (target name : string) (data : result E) :
  never_empties name (create target data).
Proof.
  intros d Hne. unfold create. destruct data as [e|]; [|done]. simpl.
  destruct (decide (name = target)) as [->|Hother].
  - rewrite get_documents_create_eq. by destruct (get_documents d target).
  - by rewrite get_documents_create_ne.
Qed.

Lemma bind_never_empties {A B} (name : string) (m : script A) (k : A → script B) :
  never_empties name m → (∀ a, never_empties name (k a)) → never_empties name (m ≫= k).
Proof.
  intros Hm Hk d Hne. unfold mbind, script_bind.
  specialize (Hm d Hne). destruct (m d) as [[a|e] d1]; simpl in *; [|done].
  by apply Hk.
Qed.

Lemma first_activity_validates (utcnow : Clock) :
  Activity.validate
    {[ "type" := VStr "policy_renewal";
       "message" := VStr "Commercial Property Insurance renewed for another year";
       "actor" := VStr "system"; "occurred_at" := VDatetime (utcnow 0%nat) ]}
  = Ok (Activity.Make "policy_renewal"
          "Commercial Property Insurance renewed for another year"
          (Some "system") (Some (utcnow 0%nat))).
Proof. reflexivity. Qed.

(** The first activity is written before anything of the block can raise. *)
Lemma seed_activities_leaves_non_empty (utcnow : Clock) (d : Database) :
  get_documents (snd (seed_activities utcnow d)) "activity" ≠ [].
Proof.
  unfold seed_activities. rewrite guarded_run.
  destruct (count_documents d "activity" [] =? 0)%Z eqn:Hcount.
  - rewrite first_activity_validates.
    unfold mbind at 1, script_bind at 1. unfold create at 1.
    apply bind_never_empties.
    + apply create_never_empties.
    + intros _. apply create_never_empties.
    + rewrite get_documents_create_eq. by destruct (get_documents d "activity").
  - simpl. intros Hempty. apply count_zero_iff_empty in Hempty. congruence.
Qed.

Lemma seeded_before_activities_ne (d : Database) (name : string) :
  name ∉ ["policy"; "invoice"; "renewal"; "update"; "teammember"] →
  get_documents (seeded_before_activities d) name = get_documents d name.
Proof.
  intros Hname. unfold seeded_before_activities.
  rewrite !get_documents_fill_ne; [done|intros ->; apply Hname..];
    rewrite !elem_of_cons; auto 10.
Qed.

Lemma seeded_before_activities_non_empty (d : Database) (name : string) :
  name ∈ ["policy"; "invoice"; "renewal"; "update"; "teammember"] →
  get_documents (seeded_before_activities d) name ≠ [].
Proof.
  intros Hname. unfold seeded_before_activities.
  repeat (apply elem_of_cons in Hname as [->|Hname]);
    [..|by apply elem_of_nil in Hname];
    rewrite ?get_documents_fill_ne by done; by apply fill_leaves_non_empty.
Qed.

Lemma seed_body_leaves_non_empty (utcnow : Clock) (d : Database) (name : string) :
  name ∈ ["policy"; "invoice"; "renewal"; "update"; "teammember"; "activity"] →
  get_documents (snd (seed_body utcnow d)) name ≠ [].
Proof.
  intros Hname. rewrite seed_body_run.
  destruct (decide (name = "activity")) as [->|Hne].
  - apply seed_activities_leaves_non_empty.
  - rewrite seed_activities_writes_only by done.
    apply seeded_before_activities_non_empty.
    repeat (apply elem_of_cons in Hname as [->|Hname]);
      [..|by apply elem_of_nil in Hname]; try done;
      rewrite !elem_of_cons; auto 10.
Qed.

Lemma seed_body_nothing_to_do (utcnow : Clock) (d : Database) :
  (∀ name, name ∈ ["policy"; "invoice"; "renewal"; "update"; "teammember"; "activity"] →
           get_documents d name ≠ []) →
  seed_body utcnow d = (Ok (), d).
Proof.
  intros Hfull. rewrite seed_body_run. unfold seeded_before_activities.
  rewrite (fill_non_empty "policy") by (apply Hfull; rewrite !elem_of_cons; auto 10).
  rewrite (fill_non_empty "invoice") by (apply Hfull; rewrite !elem_of_cons; auto 10).
  rewrite (fill_non_empty "renewal") by (apply Hfull; rewrite !elem_of_cons; auto 10).
  rewrite (fill_non_empty "update") by (apply Hfull; rewrite !elem_of_cons; auto 10).
  rewrite (fill_non_empty "teammember") by (apply Hfull; rewrite !elem_of_cons; auto 10).
  unfold seed_activities. rewrite guarded_run.
  destruct (count_documents d "activity" [] =? 0)%Z eqn:Hcount; [|done].
  apply count_zero_iff_empty in Hcount. destruct (Hfull "activity"); [rewrite !elem_of_cons; auto 10|done].
Qed.

(** X4.  Running the seed step a second time, at any later time, changes nothing:
    after the first run each of the six seeded collections holds a record,
    also when the first run stopped at an exception. *)
Theorem seed_demo_idempotent (utcnow1 utcnow2 : Clock) (db : Store) :
  seed_demo utcnow2 (seed_demo utcnow1 db) = seed_demo utcnow1 db.
Proof.
  destruct db as [d|]; [|done]. simpl. f_equal.
  rewrite seed_body_nothing_to_do; [done|].
  intros name Hname. by apply seed_body_leaves_non_empty.
Qed.

(** ** Listing after the seed step *)

Lemma for_each_number_from {E} `{BaseModel E} (validate : doc → result E)
    (kwargs : doc → doc) (es : list E) (id : N) :
  (∀ e id, e ∈ es → validate (kwargs (<["_id" := VObjectId id]> (model_dump e))) = Ok e) →
  for_each validate (kwargs <$> number_from id es) = Ok es.
Proof.
  revert id. induction es as [|e es IH]; intros id Hes; [done|].
  simpl. rewrite Hes by left. simpl. rewrite IH; [done|].
  intros e' id' He'. apply Hes. by right.
Qed.

Lemma policy_kwargs_stored (p : Policy.t) (id : N) :
  policy_kwargs (<["_id" := VObjectId id]> (model_dump p)) = model_dump p.
Proof.
  unfold policy_kwargs. rewrite delete_insert_eq, delete_id by done. by destruct p.
Qed.

Lemma invoice_kwargs_stored (x : Invoice.t) (id : N) :
  invoice_kwargs (<["_id" := VObjectId id]> (model_dump x)) = model_dump x.
Proof.
  unfold invoice_kwargs. rewrite delete_insert_eq, delete_id by done. by destruct x.
Qed.

Lemma renewal_kwargs_stored (x : Renewal.t) (id : N) :
  renewal_kwargs (<["_id" := VObjectId id]> (model_dump x)) = model_dump x.
Proof.
  unfold renewal_kwargs. rewrite delete_insert_eq, delete_id by done. by destruct x.
Qed.

Lemma update_kwargs_stored (x : Update.t) (id : N) :
  update_kwargs (<["_id" := VObjectId id]> (model_dump x)) = model_dump x.
Proof. unfold update_kwargs. by rewrite delete_insert_eq, delete_id. Qed.

Lemma team_kwargs_stored (x : TeamMember.t) (id : N) :
  team_kwargs (<["_id" := VObjectId id]> (model_dump x)) = model_dump x.
Proof. unfold team_kwargs. by rewrite delete_insert_eq, delete_id. Qed.

Lemma seed_body_collection (utcnow : Clock) (d : Database) (name : string) :
  name ≠ "activity" →
  get_documents (snd (seed_body utcnow d)) name
  = get_documents (seeded_before_activities d) name.
Proof. intros Hne. rewrite seed_body_run. by apply seed_activities_writes_only. Qed.

Ltac seeded_collection_tac :=
  intros Hempty; rewrite seed_body_collection by done;
  unfold seeded_before_activities;
  eexists; rewrite ?get_documents_fill_ne by done;
  (rewrite get_documents_fill_empty; [reflexivity|]);
  by rewrite ?get_documents_fill_ne by done.

Lemma seeded_policies_stored (utcnow : Clock) (d : Database) :
  get_documents d "policy" = [] →
  ∃ id, get_documents (snd (seed_body utcnow d)) "policy" = number_from id seeded_policies.
Proof. seeded_collection_tac. Qed.

Lemma seeded_invoices_stored (utcnow : Clock) (d : Database) :
  get_documents d "invoice" = [] →
  ∃ id, get_documents (snd (seed_body utcnow d)) "invoice" = number_from id seeded_invoices.
Proof. seeded_collection_tac. Qed.

Lemma seeded_renewals_stored (utcnow : Clock) (d : Database) :
  get_documents d "renewal" = [] →
  ∃ id, get_documents (snd (seed_body utcnow d)) "renewal" = number_from id seeded_renewals.
Proof. seeded_collection_tac. Qed.

Lemma seeded_updates_stored (utcnow : Clock) (d : Database) :
  get_documents d "update" = [] →
  ∃ id, get_documents (snd (seed_body utcnow d)) "update" = number_from id fallback_updates.
Proof. seeded_collection_tac. Qed.

Lemma seeded_team_stored (utcnow : Clock) (d : Database) :
  get_documents d "teammember" = [] →
  ∃ id, get_documents (snd (seed_body utcnow d)) "teammember"
        = number_from id fallback_team.
Proof. seeded_collection_tac. Qed.

(** X5.  The seed step cannot be observed through [GET /api/updates] and
    [GET /api/team]: the records it writes into an empty collection are the
    fallback records, and a collection that holds a record is left alone. *)
Theorem seed_invisible_in_updates_and_team (utcnow : Clock) (db : Store) :
  list_updates (seed_demo utcnow db) = list_updates db
  ∧ list_team (seed_demo utcnow db) = list_team db.
Proof.
  destruct db as [d|]; [|done]. split.
  - destruct (get_documents d "update") as [|x l] eqn:Hdocs.
    + rewrite (list_updates_nothing (Some d)) by (right; by exists d).
      destruct (seeded_updates_stored utcnow d Hdocs) as [id Hstored].
      unfold list_updates, seed_demo, docs_of. rewrite Hstored. simpl.
      by rewrite update_kwargs_stored.
    + unfold list_updates, seed_demo, docs_of. cbv zeta.
      by rewrite (seed_body_keeps_non_empty utcnow d "update") by (by rewrite Hdocs).
  - destruct (get_documents d "teammember") as [|x l] eqn:Hdocs.
    + rewrite (list_team_nothing (Some d)) by (right; by exists d).
      destruct (seeded_team_stored utcnow d Hdocs) as [id Hstored].
      unfold list_team, seed_demo, docs_of. rewrite Hstored. simpl.
      rewrite !team_kwargs_stored. apply team_fallback_validates.
    + unfold list_team, seed_demo, docs_of. cbv zeta.
      by rewrite (seed_body_keeps_non_empty utcnow d "teammember") by (by rewrite Hdocs).
Qed.

(** X6.  After the seed step an empty collection of policies, invoices or
    renewals lists exactly the literal records of [seed_demo], with the
    start, end, due and renewal days as dates and the premiums and amounts as
    floats. *)
Theorem seeded_collections_are_listed (utcnow : Clock) (d : Database) :
  (get_documents d "policy" = [] →
     list_policies (seed_demo utcnow (Some d)) = Ok seeded_policies)
  ∧ (get_documents d "invoice" = [] →
       list_invoices (seed_demo utcnow (Some d)) = Ok seeded_invoices)
  ∧ (get_documents d "renewal" = [] →
       list_renewals (seed_demo utcnow (Some d)) = Ok seeded_renewals).
Proof.
  split_and!.
  - intros Hempty. destruct (seeded_policies_stored utcnow d Hempty) as [id Hstored].
    unfold list_policies, seed_demo, docs_of. rewrite Hstored. simpl.
    by rewrite !policy_kwargs_stored.
  - intros Hempty. destruct (seeded_invoices_stored utcnow d Hempty) as [id Hstored].
    unfold list_invoices, seed_demo, docs_of. rewrite Hstored. simpl.
    by rewrite !invoice_kwargs_stored.
  - intros Hempty. destruct (seeded_renewals_stored utcnow d Hempty) as [id Hstored].
    unfold list_renewals, seed_demo, docs_of. rewrite Hstored. simpl.
    by rewrite !renewal_kwargs_stored.
Qed.

(** X7.  A store whose policy, invoice, renewal and update collections are empty
    shows, once seeded, the very dashboard of the store-less case. *)
Theorem seeded_dashboard_equals_fallback (utcnow : Clock) (d : Database) :
  get_documents d "policy" = [] →
  get_documents d "invoice" = [] →
  get_documents d "renewal" = [] →
  get_documents d "update" = [] →
  get_dashboard_counts (seed_demo utcnow (Some d)) = Ok fallback_counts.
Proof.
  intros Hp Hi Hr Hu.
  destruct (seeded_policies_stored utcnow d Hp) as [idp Hpolicies].
  destruct (seeded_invoices_stored utcnow d Hi) as [idi Hinvoices].
  destruct (seeded_renewals_stored utcnow d Hr) as [idr Hrenewals].
  destruct (seeded_updates_stored utcnow d Hu) as [idu Hupdates].
  unfold get_dashboard_counts, seed_demo, count_documents, find.
  rewrite Hpolicies, Hinvoices, Hrenewals, Hupdates.
  reflexivity.
Qed.

(** ** The dashboard total *)

Lemma py_sum_from_Ok (acc n : number) (vs : list value) :
  py_sum_from acc vs = Ok n →
  Forall (λ v, match v with VInt _ | VFloat _ => True | _ => False end) vs.
Proof.
  revert acc. induction vs as [|v vs IH]; intros acc; simpl; [done|].
  destruct (py_add acc v) as [acc'|] eqn:Hadd; simpl; [|done].
  intros Hrest. constructor; [|by eapply IH].
  by destruct acc, v.
Qed.

Lemma py_sum_from_ints (acc : Z) (invoices : list doc) :
  Forall (λ i, has_int_amount i = true) invoices →
  py_sum_from (NInt acc) ((λ i, default (VInt 0) (i !! "amount")) <$> invoices)
  = Ok (NInt (acc + foldr (λ i total, int_amount i + total) 0 invoices)%Z).
Proof.
  intros Hints. revert acc. induction Hints as [|i invoices Hi _ IH]; intros acc; simpl.
  - by rewrite Z.add_0_r.
  - unfold has_int_amount, int_amount in *.
    destruct (i !! "amount") as [[]|]; try done; simpl; rewrite IH;
      do 2 f_equal; lia.
Qed.

(** X8.  The dashboard adds up the raw [amount] values of the outstanding
    invoices without validating them: it can only answer when each of them
    is a number or is absent.  A null, text or date amount in a single
    outstanding invoice takes the dashboard down. *)
Theorem dashboard_needs_summable_amounts (d : Database) (c : DashboardCounts.t) :
  get_dashboard_counts (Some d) = Ok c →
  Forall (λ i, summable_amount i = true) (find d "invoice" [("status", "outstanding")]).
Proof.
  intros Hc. destruct (dashboard_with_store d c Hc) as (_ & _ & _ & Hsome & _).
  destruct (find d "invoice" [("status", "outstanding")]) as [|i rest] eqn:Hfind; [done|].
  destruct Hsome as (_ & total & Hsum & _); [done|].
  apply py_sum_from_Ok in Hsum. apply Forall_fmap in Hsum.
  eapply Forall_impl; [exact Hsum|]. intros x. unfold summable_amount. simpl.
  by destruct (x !! "amount") as [[]|].
Qed.

(** X9.  Integer amounts are added exactly, as Python ints, and converted to a
    float once at the end; an outstanding invoice without [amount] counts as
    0. *)
Theorem dashboard_total_of_int_amounts (d : Database) (c : DashboardCounts.t) (f : float) :
  get_dashboard_counts (Some d) = Ok c →
  find d "invoice" [("status", "outstanding")] ≠ [] →
  Forall (λ i, has_int_amount i = true) (find d "invoice" [("status", "outstanding")]) →
  float_of_int (foldr (λ i total, int_amount i + total)%Z 0%Z
                  (find d "invoice" [("status", "outstanding")])) = Ok f →
  DashboardCounts.outstanding_total c = f
  ∧ DashboardCounts.outstanding_invoices c
    = Z.of_nat (length (find d "invoice" [("status", "outstanding")])).
Proof.
  intros Hc Hne Hints Hf.
  destruct (dashboard_with_store d c Hc) as (_ & _ & _ & Hsome & _).
  destruct (Hsome Hne) as (Hcount & total & Hsum & Htotal). split; [|done].
  unfold py_sum in Hsum. rewrite (py_sum_from_ints 0 _ Hints), Z.add_0_l in Hsum.
  injection Hsum as <-. unfold number_value, float_field in Htotal.
  rewrite Hf in Htotal. congruence.
Qed.

(** ** Upload *)

(** X10.  An upload is acknowledged whatever the store is, and never fails.  With
    a store it appends exactly one record to the documents, with the given
    file name, category "Uploaded" and no size, and touches nothing else;
    without a store nothing is written. *)
Theorem upload_acknowledged_and_only_appends (file_filename : string)
    (file_content_type policy_number : option string) (db : Store) :
  fst (upload_document file_filename file_content_type policy_number db)
  = Ok {[ "status" := VStr "ok"; "filename" := VStr file_filename ]}
  ∧ match db, snd (upload_document file_filename file_content_type policy_number db) with
    | None, None => True
    | Some d, Some d' =>
        (∀ name, name ≠ "documentitem" → get_documents d' name = get_documents d name)
        ∧ ∃ record,
            get_documents d' "documentitem" = (get_documents d "documentitem" ++ [record])%list
            ∧ record !! "filename" = Some (VStr file_filename)
            ∧ record !! "category" = Some (VStr "Uploaded")
            ∧ record !! "size_bytes" = Some VNone
    | _, _ => False
    end.
Proof.
  unfold upload_document. rewrite upload_kwargs_validate.
  destruct db as [d|]; simpl; [|done]. split; [done|]. split.
  - intros name Hne. by apply get_documents_create_ne.
  - eexists. split; [apply get_documents_create_eq|]. by split_and!.
Qed.
End further_properties.

(** ** Concrete runs of the further properties *)

(** The policy stored with a start at 09:30, once validated, survives a dump. *)
Lemma validated_entity_survives_dump_witness :
  @Policy.validate reference_pydantic
    (policy_kwargs (policy_starting new_year_morning))
  = Ok (Policy.Make "CP-12345" "Commercial Property" Policy.active
          (Date 2024 1 1) (Date 2024 12 31) 12000 "Acme Corp")
  ∧ @Policy.validate reference_pydantic
      (model_dump (Policy.Make "CP-12345" "Commercial Property" Policy.active
                     (Date 2024 1 1) (Date 2024 12 31) 12000 "Acme Corp"))
    = Ok (Policy.Make "CP-12345" "Commercial Property" Policy.active
            (Date 2024 1 1) (Date 2024 12 31) 12000 "Acme Corp").
Proof.
  split; [reflexivity|].
  apply (proj1 (validated_entity_survives_dump (pydantic := reference_pydantic))
           (policy_kwargs (policy_starting new_year_morning))).
  reflexivity.
Defined.

(** A policy record without start date takes [GET /api/policies] down. *)
Lemma list_handlers_fail_on_bad_record_witness :
  Exists (λ d, is_ok (@Policy.validate reference_pydantic (policy_kwargs d))
               = false)
    (docs_of (Some broken_policy_database) "policy")
  ∧ list_policies (pydantic := reference_pydantic) (Some broken_policy_database)
    = Raise ValidationError.
Proof.
  assert (Exists (λ d, is_ok (@Policy.validate reference_pydantic (policy_kwargs d))
                         = false)
            (docs_of (Some broken_policy_database) "policy")) as Hbad.
  { left. reflexivity. }
  split; [exact Hbad|].
  destruct (list_handlers_fail_exactly_on_bad_record (pydantic := reference_pydantic)
              (frozen_clock new_year_morning)) as (Hpolicies & _).
  destruct (Hpolicies (Some broken_policy_database)) as [Honly Hiff].
  apply Hiff in Hbad.
  destruct (list_policies (Some broken_policy_database)) as [r|e] eqn:Hr; [done|].
  by rewrite (Honly e eq_refl).
Defined.

(** A policy and a renewal stored without status: listed as active and as
    due, counted as neither. *)
Lemma dashboard_misses_defaulted_status_witness :
  (DashboardCounts.active_policies
     <$> get_dashboard_counts (pydantic := reference_pydantic) (Some statusless_database))
  = Ok 0%Z
  ∧ (length ∘ List.filter listed_active
       <$> list_policies (pydantic := reference_pydantic) (Some statusless_database))
    = Ok 1%nat.
Proof.
  destruct (get_dashboard_counts (pydantic := reference_pydantic)
              (Some statusless_database)) as [c|] eqn:Hc; [|by vm_compute in Hc].
  destruct (dashboard_misses_defaulted_status (pydantic := reference_pydantic)
              statusless_database c Hc) as [Hpolicies _].
  destruct (list_policies (pydantic := reference_pydantic) (Some statusless_database))
    as [ps|] eqn:Hps; [|by vm_compute in Hps].
  specialize (Hpolicies ps eq_refl).
  assert (DashboardCounts.active_policies c = 0%Z) as Hzero.
  { vm_compute in Hc. by injection Hc as <-. }
  rewrite Hzero in Hpolicies. split.
  - simpl. by rewrite Hzero.
  - simpl. f_equal. apply Nat2Z.inj. rewrite Hpolicies. reflexivity.
Defined.

(** Seeding an available store without collections. *)
Lemma seeded_collections_are_listed_witness :
  list_policies (pydantic := reference_pydantic)
    (seed_demo (pydantic := reference_pydantic) (frozen_clock new_year_morning)
       (Some empty_database))
  = Ok seeded_policies
  ∧ list_invoices (pydantic := reference_pydantic)
      (seed_demo (pydantic := reference_pydantic) (frozen_clock new_year_morning)
         (Some empty_database))
    = Ok seeded_invoices.
Proof.
  destruct (seeded_collections_are_listed (pydantic := reference_pydantic)
              (frozen_clock new_year_morning) empty_database)
    as (Hpolicies & Hinvoices & _).
  split; [by apply Hpolicies|by apply Hinvoices].
Defined.

Lemma seeded_dashboard_equals_fallback_witness :
  get_documents empty_database "policy" = []
  ∧ get_dashboard_counts (pydantic := reference_pydantic)
      (seed_demo (pydantic := reference_pydantic) (frozen_clock new_year_morning)
         (Some empty_database))
    = Ok fallback_counts.
Proof.
  split; [reflexivity|].
  by apply (seeded_dashboard_equals_fallback (pydantic := reference_pydantic)).
Defined.

(** An outstanding invoice of 15000 and one without amount. *)
Lemma dashboard_needs_summable_amounts_witness :
  get_dashboard_counts (pydantic := reference_pydantic) (Some int_invoice_database)
  = Ok (DashboardCounts.Make 0 2 15000 0 0)
  ∧ Forall (λ i, summable_amount i = true)
      (find int_invoice_database "invoice" [("status", "outstanding")]).
Proof.
  assert (get_dashboard_counts (pydantic := reference_pydantic) (Some int_invoice_database)
          = Ok (DashboardCounts.Make 0 2 15000 0 0)) as Hc by reflexivity.
  split; [exact Hc|].
  exact (dashboard_needs_summable_amounts (pydantic := reference_pydantic) _ _ Hc).
Defined.

(** A null amount in the only outstanding invoice: the dashboard raises. *)
Example dashboard_null_amount :
  get_dashboard_counts (pydantic := reference_pydantic) (Some null_amount_database)
  = Raise TypeError.
Proof. reflexivity. Qed.

Lemma dashboard_total_of_int_amounts_witness :
  float_of_int 15000 = Ok 15000%float
  ∧ (DashboardCounts.outstanding_total
       <$> get_dashboard_counts (pydantic := reference_pydantic) (Some int_invoice_database))
    = Ok 15000%float.
Proof.
  split; [reflexivity|].
  destruct (get_dashboard_counts (pydantic := reference_pydantic)
              (Some int_invoice_database)) as [c|] eqn:Hc; [|by vm_compute in Hc].
  simpl. f_equal.
  apply (dashboard_total_of_int_amounts (pydantic := reference_pydantic)
           int_invoice_database c 15000 Hc); [done| |reflexivity].
  repeat constructor.
Defined.
